(** * TaskFlow: the task store and task engine of [modern_task_app.py]

    A shallow embedding of the handlers of [ModernTaskApp] that read or
    change the task collection, and the properties of the specification
    checked against them.

    Conventions of the embedding.
    - A Python [str] is a [string] whose characters are the code points
      below 256.
    - A calendar date is its proleptic Gregorian ordinal
      ([date.toordinal()]); the ["%Y-%m-%d"] text stored in a task is the
      rendering of that ordinal, so [strftime] and [strptime] with this
      format are the injection of a date into a [datetime] at midnight and
      back.
    - The wall clock is a stream of readings; every [datetime.now()]
      consumes the next one. Dates are not bounded: the clock is taken to
      be far from the year 9999, where [now + timedelta(days=7)]
      overflows.
    - The disk is a stream of outcomes; every [open(..., 'w')] consumes
      the next one. A write that raises ends the handler it is in, and the
      main loop goes on with the next action.
    - [filtered_tasks] and the cards hold tasks as values, as they were
      when [filter_tasks] last ran. In the source they share the dicts of
      [self.tasks], so an assignment into a dict is seen through them
      before the next [filter_tasks]; the theorems on the view are all
      stated after [filter_tasks] (or [__init__]) has built it anew.
    - A file that [json.load] accepts holds a list of task dicts with the
      seven keys, a priority that is one of the radio values and a due
      date in the format above; on other JSON texts [__init__] raises
      while it draws the cards.
    - Handlers are written in a state monad over the application object. *)

From Stdlib Require Import ZArith String Ascii Bool List Lia.
From stdpp Require Import base option list strings gmap.

Local Open Scope string_scope.
Local Open Scope Z_scope.

(** ** Python strings *)

Module PyStr.

(** [str.isspace] of one code point below 256. *)
Definition isspace (c : ascii) : bool :=
  let n := nat_of_ascii c in
  ((9 <=? n) && (n <=? 13))%nat || ((28 <=? n) && (n <=? 32))%nat
  || (n =? 133)%nat || (n =? 160)%nat.

(** [str.lower] of one code point below 256. *)
Definition lower_char (c : ascii) : ascii :=
  let n := nat_of_ascii c in
  if ((65 <=? n) && (n <=? 90))%nat
     || ((192 <=? n) && (n <=? 222) && negb (n =? 215))%nat
  then ascii_of_nat (n + 32) else c.

Fixpoint lower (s : string) : string :=
  match s with
  | EmptyString => EmptyString
  | String c s' => String (lower_char c) (lower s')
  end.

Fixpoint lstrip (s : string) : string :=
  match s with
  | EmptyString => EmptyString
  | String c s' => if isspace c then lstrip s' else s
  end.

Fixpoint rstrip (s : string) : string :=
  match s with
  | EmptyString => EmptyString
  | String c s' =>
      match rstrip s' with
      | EmptyString => if isspace c then EmptyString else String c EmptyString
      | r => String c r
      end
  end.

(** [s.strip()] *)
Definition strip (s : string) : string := rstrip (lstrip s).

(** Truth value of a string: [if s:] *)
Definition truthy (s : string) : bool :=
  match s with EmptyString => false | _ => true end.

(** [hay.startswith(needle)] *)
Fixpoint startswith (needle hay : string) : bool :=
  match needle, hay with
  | EmptyString, _ => true
  | String _ _, EmptyString => false
  | String a needle', String b hay' => Ascii.eqb a b && startswith needle' hay'
  end.

(** [needle in hay] *)
Fixpoint contains (needle hay : string) : bool :=
  startswith needle hay
  || match hay with
     | EmptyString => false
     | String _ hay' => contains needle hay'
     end.

End PyStr.

(** ** Python [datetime] and [timedelta] *)

Module PyTime.

(** A date, as [date.toordinal()]. *)
Definition date := Z.

(** A naive [datetime]: the date, the second of the day
    ([hour*3600 + minute*60 + second]) and the microsecond. *)
Record datetime := mk_datetime {
  dt_date : date;
  dt_second : Z;
  dt_microsecond : Z
}.

Record timedelta := mk_timedelta {
  days : Z;
  seconds : Z;
  microseconds : Z
}.

(** The normalising constructor [timedelta(days, seconds, microseconds)]
    on integers: microseconds carry into seconds, seconds into days. *)
Definition timedelta_new (d s us : Z) : timedelta :=
  let s := s + us / 1000000 in
  let us := us mod 1000000 in
  let d := d + s / 86400 in
  let s := s mod 86400 in
  mk_timedelta d s us.

(** [a - b] on two datetimes. *)
Definition datetime_sub (a b : datetime) : timedelta :=
  timedelta_new (dt_date a - dt_date b)
                (dt_second a - dt_second b)
                (dt_microsecond a - dt_microsecond b).

(** [a + timedelta(days=n)] *)
Definition datetime_add_days (a : datetime) (n : Z) : datetime :=
  mk_datetime (dt_date a + n) (dt_second a) (dt_microsecond a).

(** [a.strftime("%Y-%m-%d")]: the date of [a]. *)
Definition strftime_ymd (a : datetime) : date := dt_date a.

(** [datetime.strptime(d, "%Y-%m-%d")]: midnight of [d]. *)
Definition strptime_ymd (d : date) : datetime := mk_datetime d 0 0.

(** A reading of the clock is well formed when its time of day is in
    range. *)
Definition wf_datetime (a : datetime) : Prop :=
  0 <= dt_second a < 86400 /\ 0 <= dt_microsecond a < 1000000.

(** Calendar helpers, used to write dates in examples. *)
Definition is_leap (y : Z) : bool :=
  (y mod 4 =? 0) && (negb (y mod 100 =? 0) || (y mod 400 =? 0)).

Definition days_before_year (y : Z) : Z :=
  let y := y - 1 in y * 365 + y / 4 - y / 100 + y / 400.

Definition days_before_month (y m : Z) : Z :=
  nth (Z.to_nat m) [0; 0; 31; 59; 90; 120; 151; 181; 212; 243; 273; 304; 334] 0
  + (if (2 <? m) && is_leap y then 1 else 0).

Definition ymd2ord (y m d : Z) : date :=
  days_before_year y + days_before_month y m + d.

Definition at_time (d : date) (h mi s us : Z) : datetime :=
  mk_datetime d (h * 3600 + mi * 60 + s) us.

End PyTime.

Import PyStr PyTime.

(** ** Data model *)

(** A task: the dict built by [add_task] and stored in [tasks.json].
    [description] is read with [t.get('description', '')], so the key may
    be missing. [created_at] stands for its [isoformat()] text and
    [due_date] for its ["%Y-%m-%d"] text. *)
Record Task := mk_task {
  id : Z;
  title : string;
  description : option string;
  priority : string;
  status : string;
  created_at : datetime;
  due_date : date
}.

Definition set_title (v : string) (t : Task) : Task :=
  mk_task (id t) v (description t) (priority t) (status t) (created_at t) (due_date t).
Definition set_description (v : string) (t : Task) : Task :=
  mk_task (id t) (title t) (Some v) (priority t) (status t) (created_at t) (due_date t).
Definition set_priority (v : string) (t : Task) : Task :=
  mk_task (id t) (title t) (description t) v (status t) (created_at t) (due_date t).
Definition set_status (v : string) (t : Task) : Task :=
  mk_task (id t) (title t) (description t) (priority t) v (created_at t) (due_date t).

(** [t.get('description', '')] *)
Definition get_description (t : Task) : string := default "" (description t).

(** The four ways a card shows its due date: ["(Overdue by N days)"] in
    the danger colour, ["(Today)"] in the warning colour, ["(N days)"] in
    the warning colour, ["(N days)"] in the secondary text colour. *)
Inductive urgency := Overdue | DueToday | DueSoon | Normal.

Record Card := mk_card {
  card_task : Task;
  card_days_until : Z;
  card_urgency : urgency;
  card_due_color : string
}.

(** What the user is shown by [messagebox.showwarning] and
    [show_notification]. *)
Inductive ui_event :=
| ShowWarning (caption message : string)
| Notification (message kind : string).

(** The file [tasks.json]: absent, present but failing to open or read,
    present with text that [json.load] rejects, or holding a task list. *)
Inductive file :=
| NoFile
| Unreadable
| Malformed
| Stored (l : list Task).

(** How a write of [tasks.json] ends: the text is written; or
    [open(..., 'w')] raises and the file is as before; or the file is
    opened, which empties it, and [json.dump] raises before the text is
    complete. *)
Inductive write_outcome := Written | OpenFails | WriteFails.

Record Stats := mk_stats { total : Z; completed : Z; pending : Z }.

(** The application object ([self]) together with the parts of the
    environment its handlers touch: the file, the messages shown, the
    clock. [tasks] is the list of dicts itself, so a dict is addressed by
    its position in it. [filtered_tasks] is the list as the last
    [filter_tasks] built it; every handler that completes a change of
    [tasks] ends by building it again. [cards] is what [display_tasks]
    drew. [disk] tells how each write of the file will end, and [writes]
    counts the writes so far. *)
Record App := mk_app {
  tasks : list Task;
  filtered_tasks : list Task;
  current_filter : string;
  search_var : string;
  stat_labels : Stats;
  cards : list Card;
  tasks_file : file;
  ui : list ui_event;
  clock : nat -> datetime;
  ticks : nat;
  disk : nat -> write_outcome;
  writes : nat
}.

Definition with_tasks (v : list Task) (a : App) : App :=
  mk_app v (filtered_tasks a) (current_filter a) (search_var a) (stat_labels a)
         (cards a) (tasks_file a) (ui a) (clock a) (ticks a) (disk a) (writes a).
Definition with_filtered_tasks (v : list Task) (a : App) : App :=
  mk_app (tasks a) v (current_filter a) (search_var a) (stat_labels a)
         (cards a) (tasks_file a) (ui a) (clock a) (ticks a) (disk a) (writes a).
Definition with_current_filter (v : string) (a : App) : App :=
  mk_app (tasks a) (filtered_tasks a) v (search_var a) (stat_labels a)
         (cards a) (tasks_file a) (ui a) (clock a) (ticks a) (disk a) (writes a).
Definition with_search_var (v : string) (a : App) : App :=
  mk_app (tasks a) (filtered_tasks a) (current_filter a) v (stat_labels a)
         (cards a) (tasks_file a) (ui a) (clock a) (ticks a) (disk a) (writes a).
Definition with_stat_labels (v : Stats) (a : App) : App :=
  mk_app (tasks a) (filtered_tasks a) (current_filter a) (search_var a) v
         (cards a) (tasks_file a) (ui a) (clock a) (ticks a) (disk a) (writes a).
Definition with_cards (v : list Card) (a : App) : App :=
  mk_app (tasks a) (filtered_tasks a) (current_filter a) (search_var a) (stat_labels a)
         v (tasks_file a) (ui a) (clock a) (ticks a) (disk a) (writes a).
Definition with_tasks_file (v : file) (a : App) : App :=
  mk_app (tasks a) (filtered_tasks a) (current_filter a) (search_var a) (stat_labels a)
         (cards a) v (ui a) (clock a) (ticks a) (disk a) (writes a).
Definition with_ui (v : list ui_event) (a : App) : App :=
  mk_app (tasks a) (filtered_tasks a) (current_filter a) (search_var a) (stat_labels a)
         (cards a) (tasks_file a) v (clock a) (ticks a) (disk a) (writes a).
Definition with_ticks (v : nat) (a : App) : App :=
  mk_app (tasks a) (filtered_tasks a) (current_filter a) (search_var a) (stat_labels a)
         (cards a) (tasks_file a) (ui a) (clock a) v (disk a) (writes a).
Definition with_writes (v : nat) (a : App) : App :=
  mk_app (tasks a) (filtered_tasks a) (current_filter a) (search_var a) (stat_labels a)
         (cards a) (tasks_file a) (ui a) (clock a) (ticks a) (disk a) v.

(** ** The handler monad *)

Definition M (A : Type) : Type := App -> A * App.

#[global] Instance M_ret : MRet M := fun A (x : A) s => (x, s).
#[global] Instance M_bind : MBind M := fun A B (f : A -> M B) (c : M A) s =>
  let (x, s') := c s in f x s'.

Definition gets {A} (f : App -> A) : M A := fun s => (f s, s).
Definition modify (f : App -> App) : M unit := fun s => (tt, f s).

(** The state a handler leaves behind. *)
Definition exec {A} (c : M A) (s : App) : App := snd (c s).
(** The value a handler returns. *)
Definition eval {A} (c : M A) (s : App) : A := fst (c s).

(** [datetime.now()] *)
Definition datetime_now : M datetime := fun s =>
  (clock s (ticks s), with_ticks (S (ticks s)) s).

(** [messagebox.showwarning(caption, message)] *)
Definition showwarning (caption message : string) : M unit :=
  modify (fun s => with_ui (ui s ++ [ShowWarning caption message]) s).

(** [self.show_notification(message, kind)] *)
Definition show_notification (message kind : string) : M unit :=
  modify (fun s => with_ui (ui s ++ [Notification message kind]) s).

(** ** Persistence: [load_tasks] and [save_tasks] *)

Inductive exn := OSError | JSONDecodeError | FileNotFoundError.

Inductive result (A : Type) :=
| Return (a : A)
| Raise (e : exn).
Arguments Return {A} a.
Arguments Raise {A} e.

(** [try: body / except: handler] with a bare [except]. *)
Definition try_except {A} (body : result A) (handler : result A) : result A :=
  match body with
  | Return a => Return a
  | Raise _ => handler
  end.

(** [os.path.exists(self.tasks_file)] *)
Definition os_path_exists (f : file) : bool :=
  match f with NoFile => false | _ => true end.

(** [with open(self.tasks_file, 'r') as f: json.load(f)] *)
Definition open_json_load (f : file) : result (list Task) :=
  match f with
  | NoFile => Raise FileNotFoundError
  | Unreadable => Raise OSError
  | Malformed => Raise JSONDecodeError
  | Stored l => Return l
  end.

Definition load_tasks (f : file) : result (list Task) :=
  if os_path_exists f then
    try_except (open_json_load f) (Return [])
  else Return [].

(** [with open(self.tasks_file, 'w') as f: json.dump(self.tasks, f)]:
    the next outcome of the disk decides whether the file holds the
    collection afterwards or the call raises. *)
Definition save_tasks : M (result unit) := fun s =>
  let s' := with_writes (S (writes s)) s in
  match disk s (writes s) with
  | Written => (Return tt, with_tasks_file (Stored (tasks s)) s')
  | OpenFails => (Raise OSError, s')
  | WriteFails => (Raise OSError, with_tasks_file Malformed s')
  end.

(** A statement that may raise, and what follows it in a handler: when it
    raises, what follows does not run. No handler of the source catches
    the exception; the toolkit prints the traceback and goes on with the
    next event. *)
Definition unless_raises (c : M (result unit)) (k : M unit) : M unit :=
  r ← c;
  match r with
  | Return _ => k
  | Raise _ => mret tt
  end.

(** ** Rendering the task cards *)

(** The [if]/[elif] chain of [create_task_card] on [days_until]. *)
Definition due_badge (days_until : Z) : urgency * string :=
  if days_until <? 0 then (Overdue, "danger")
  else if days_until =? 0 then (DueToday, "warning")
  else if days_until <=? 3 then (DueSoon, "warning")
  else (Normal, "text_secondary").

(** [(datetime.strptime(task['due_date'], "%Y-%m-%d") - now).days] *)
Definition days_until_at (task : Task) (now : datetime) : Z :=
  days (datetime_sub (strptime_ymd (due_date task)) now).

Definition create_task_card (task : Task) : M Card :=
  now ← datetime_now;
  let days_until := days_until_at task now in
  let (u, due_color) := due_badge days_until in
  mret (mk_card task days_until u due_color).

Fixpoint create_task_cards (l : list Task) : M (list Card) :=
  match l with
  | [] => mret []
  | task :: l' =>
      c ← create_task_card task;
      cs ← create_task_cards l';
      mret (c :: cs)
  end.

Definition display_tasks : M unit :=
  ft ← gets filtered_tasks;
  match ft with
  | [] => modify (with_cards [])
  | _ => cs ← create_task_cards ft; modify (with_cards cs)
  end.

(** ** Filtering and searching: [filter_tasks] *)

Definition set_active_filter (filter_type : string) : M unit :=
  modify (with_current_filter filter_type).

(** The condition of the search comprehension. *)
Definition search_match (search_term : string) (t : Task) : bool :=
  contains search_term (lower (title t))
  || contains search_term (lower (get_description t)).

Definition filter_tasks (filter_type : string) : M unit :=
  set_active_filter filter_type;;
  ts ← gets tasks;
  (if String.eqb filter_type "all" then
     modify (with_filtered_tasks ts)
   else if String.eqb filter_type "pending" then
     modify (with_filtered_tasks
               (List.filter (fun t => String.eqb (status t) "pending") ts))
   else if String.eqb filter_type "completed" then
     modify (with_filtered_tasks
               (List.filter (fun t => String.eqb (status t) "completed") ts))
   else if String.eqb filter_type "high" then
     modify (with_filtered_tasks
               (List.filter (fun t => String.eqb (priority t) "high") ts))
   else if String.eqb filter_type "today" then
     now ← datetime_now;
     let today := strftime_ymd now in
     modify (with_filtered_tasks
               (List.filter (fun t => due_date t =? today) ts))
   else mret tt);;
  sv ← gets search_var;
  (if truthy sv then
     let search_term := lower sv in
     ft ← gets filtered_tasks;
     modify (with_filtered_tasks (List.filter (search_match search_term) ft))
   else mret tt);;
  display_tasks.

(** The trace on [search_var]: the user has typed [text] in the search
    box. *)
Definition search_tasks (text : string) : M unit :=
  modify (with_search_var text);;
  cf ← gets current_filter;
  filter_tasks cf.

Definition update_stats : M unit :=
  ts ← gets tasks;
  let total := Z.of_nat (length ts) in
  let completed :=
    Z.of_nat (length (List.filter (fun t => String.eqb (status t) "completed") ts)) in
  let pending := total - completed in
  modify (with_stat_labels (mk_stats total completed pending)).

(** ** The handlers that change the collection *)

(** The "Add Task" button of the dialog, with the contents of its three
    inputs. *)
Definition add_task (title_entry desc_text priority_var : string) : M unit :=
  let title := strip title_entry in
  let description := strip desc_text in
  let priority := priority_var in
  if negb (truthy title) then
    showwarning "Warning" "Please enter a task title!"
  else
    ts ← gets tasks;
    created ← datetime_now;
    due ← datetime_now;
    let task :=
      mk_task (Z.of_nat (length ts) + 1) title (Some description) priority
              "pending" created (strftime_ymd (datetime_add_days due 7)) in
    modify (fun s => with_tasks (tasks s ++ [task]) s);;
    unless_raises save_tasks
      (cf ← gets current_filter;
       filter_tasks cf;;
       update_stats;;
       show_notification "Task added successfully!" "success").

(** The [for] loop of [toggle_task_status]: the first task with the id
    gets the status, then [break]. *)
Fixpoint set_first_status (task_id : Z) (new_status : string) (l : list Task)
  : list Task :=
  match l with
  | [] => []
  | task :: l' =>
      if id task =? task_id then set_status new_status task :: l'
      else task :: set_first_status task_id new_status l'
  end.

Definition toggle_task_status (task_id : Z) (completed : bool) : M unit :=
  modify (fun s =>
    with_tasks (set_first_status task_id
                  (if completed then "completed" else "pending") (tasks s)) s);;
  unless_raises save_tasks
    (cf ← gets current_filter;
     filter_tasks cf;;
     update_stats;;
     let status := if completed then "completed" else "reopened" in
     show_notification ("Task " ++ status ++ "!")
                       (if completed then "success" else "info")).

(** [edit_task] up to the point where the dialog is open: the dialog
    holds [task], the first dict of [self.tasks] with the id, here as its
    position in [self.tasks]; [None] when there is none and the handler
    returns. The dialog is modal, so [self.tasks] is the same list when
    its button is pressed. *)
Definition edit_task (task_id : Z) : M (option nat) :=
  ts ← gets tasks;
  mret (fst <$> list_find (fun t => id t = task_id) ts).

(** The "Save Changes" button of the dialog opened on the task at
    position [i]. The three assignments write into the dict that
    [self.tasks] holds. *)
Definition save_changes (i : nat) (title_entry desc_text priority_var : string)
  : M unit :=
  modify (fun s => with_tasks (alter (set_title (strip title_entry)) i (tasks s)) s);;
  modify (fun s => with_tasks (alter (set_description (strip desc_text)) i (tasks s)) s);;
  modify (fun s => with_tasks (alter (set_priority priority_var) i (tasks s)) s);;
  ts ← gets tasks;
  if negb (truthy (from_option title "" (ts !! i))) then
    showwarning "Warning" "Please enter a task title!"
  else
    unless_raises save_tasks
      (cf ← gets current_filter;
       filter_tasks cf;;
       show_notification "Task updated successfully!" "success").

(** Opening the editor on [task_id], entering the three values and
    pressing "Save Changes". *)
Definition update (task_id : Z) (title description priority : string) : M unit :=
  d ← edit_task task_id;
  match d with
  | None => mret tt
  | Some i => save_changes i title description priority
  end.

(** [delete_task]; [answer] is what the user replies to
    [messagebox.askyesno]. *)
Definition delete_task (answer : bool) (task_id : Z) : M unit :=
  if answer then
    modify (fun s =>
      with_tasks (List.filter (fun t => negb (id t =? task_id)) (tasks s)) s);;
    unless_raises save_tasks
      (cf ← gets current_filter;
       filter_tasks cf;;
       update_stats;;
       show_notification "Task deleted!" "info")
  else mret tt.

(** [on_closing]: the save, then [self.root.destroy()]. *)
Definition on_closing : M unit := unless_raises save_tasks (mret tt).

(** [__init__] and [create_widgets], as far as they set up the fields
    above; [f], [clk] and [dsk] are the file, the clock and the disk the
    application finds. *)
Definition startup (f : file) (clk : nat -> datetime)
           (dsk : nat -> write_outcome) : result App :=
  match load_tasks f with
  | Raise e => Raise e
  | Return l =>
      let s := mk_app l l "all" "" (mk_stats 0 0 0) [] f [] clk 0%nat dsk 0%nat in
      Return (exec (update_stats;; set_active_filter "all";; display_tasks) s)
  end.

(** ** The operations as the specification words them

    These definitions follow the text of the specification, not the
    source; the theorems below compare the handlers with them. *)

Module Spec.

Inductive filter_kind :=
| KindAll | KindPending | KindCompleted | KindHighPriority | KindDueToday.

(** [filter(kind, tasks)]; "dueToday" compares [due_date] with the
    current calendar date. *)
Definition filter (kind : filter_kind) (today : date) (ts : list Task)
  : list Task :=
  match kind with
  | KindAll => ts
  | KindPending => List.filter (fun t => String.eqb (status t) "pending") ts
  | KindCompleted => List.filter (fun t => String.eqb (status t) "completed") ts
  | KindHighPriority => List.filter (fun t => String.eqb (priority t) "high") ts
  | KindDueToday => List.filter (fun t => due_date t =? today) ts
  end.

(** [term] is at the start of [s], letters compared without case. *)
Fixpoint starts_with_ci (term s : string) : bool :=
  match term, s with
  | EmptyString, _ => true
  | String _ _, EmptyString => false
  | String a term', String b s' =>
      Ascii.eqb (lower_char a) (lower_char b) && starts_with_ci term' s'
  end.

(** [term] is a case-insensitive substring of [s]. *)
Fixpoint occurs_ci (term s : string) : bool :=
  starts_with_ci term s
  || match s with
     | EmptyString => false
     | String _ s' => occurs_ci term s'
     end.


(** [search(term, tasks)]: match against title OR description. *)
Definition search (term : string) (ts : list Task) : list Task :=
  List.filter
    (fun t => occurs_ci term (title t) || occurs_ci term (get_description t)) ts.

(** The classification of a number of whole days: [days < 0] overdue,
    [days == 0] dueToday, [1 <= days <= 3] dueSoon, [days > 3] normal. *)
Definition classify (d : Z) : urgency :=
  if d <? 0 then Overdue
  else if d =? 0 then DueToday
  else if (1 <=? d) && (d <=? 3) then DueSoon
  else Normal.

(** [urgency(task, today)]: a function of [due_date - today] in whole
    days. *)
Definition urgency_of (t : Task) (today : date) : urgency :=
  classify (due_date t - today).

(** [nextId(tasks)]: [1 + max(existing ids)], or [1] for an empty
    collection. *)
Definition next_id (ts : list Task) : Z :=
  match ts with
  | [] => 1
  | t :: ts' => 1 + fold_left Z.max (map id ts') (id t)
  end.

(** [due_date = creation date + 7 days]. *)
Definition due_date_of (created_at : datetime) : date :=
  dt_date created_at + 7.

Inductive error := ValidationError | NotFoundError | StorageError.

End Spec.

(** The filter names the sidebar buttons pass to [filter_tasks]. *)
Definition filter_type_of (kind : Spec.filter_kind) : string :=
  match kind with
  | Spec.KindAll => "all"
  | Spec.KindPending => "pending"
  | Spec.KindCompleted => "completed"
  | Spec.KindHighPriority => "high"
  | Spec.KindDueToday => "today"
  end.

(** The messages a handler run from [s] showed to the user. *)
Definition reported {A} (c : M A) (s : App) : list ui_event :=
  drop (length (ui s)) (ui (exec c s)).

(** How a handler tells its caller that it failed: it shows a warning box
    and returns. The only warning in the source is the one for an empty
    title; no handler has a message for an unknown id. *)
Definition error_of (r : list ui_event) : option Spec.error :=
  match r with
  | [ShowWarning _ "Please enter a task title!"] => Some Spec.ValidationError
  | _ => None
  end.

Definition fails_with {A} (e : Spec.error) (c : M A) (s : App) : Prop :=
  error_of (reported c s) = Some e.

(** The handler ran to its end and told the user so. *)
Definition succeeds_with {A} (message : string) (c : M A) (s : App) : Prop :=
  exists kind, reported c s = [Notification message kind].

(** The collection is on disk. *)
Definition persisted (s : App) : Prop := tasks_file s = Stored (tasks s).

(** The ids of a collection. *)
Definition ids (ts : list Task) : list Z := map id ts.

(** A command of the user, for runs of several handlers. *)
Inductive command :=
| Add (title description priority : string)
| Delete (task_id : Z).

Definition run_command (c : command) : M unit :=
  match c with
  | Add t d p => add_task t d p
  | Delete i => delete_task true i
  end.

Fixpoint run (cs : list command) : M unit :=
  match cs with
  | [] => mret tt
  | c :: cs' => run_command c;; run cs'
  end.

(** A disk on which every write succeeds. *)
Definition good_disk : nat -> write_outcome := fun _ => Written.

(** The application started with no file, on a disk it can write: the
    empty store. *)
Definition empty_store (clk : nat -> datetime) : App :=
  match startup NoFile clk good_disk with
  | Return s => s
  | Raise _ =>
      mk_app [] [] "all" "" (mk_stats 0 0 0) [] NoFile [] clk 0%nat good_disk 0%nat
  end.

(** A clock for examples: 10 January 2024, 10:00:00, one microsecond
    later at every reading. *)
Definition morning_clock : nat -> datetime :=
  fun n => at_time (ymd2ord 2024 1 10) 10 0 0 (Z.of_nat n).

(** A clock that passes midnight between its first two readings. *)
Definition midnight_clock : nat -> datetime :=
  fun n =>
    match n with
    | O => at_time (ymd2ord 2024 1 10) 23 59 59 999999
    | S n' => at_time (ymd2ord 2024 1 11) 0 0 0 (Z.of_nat n')
    end.

(** Example stores: one task; two tasks, then the first deleted; and a
    third task added after that. *)
Definition milk_store : App :=
  exec (add_task "Buy milk" "" "low") (empty_store morning_clock).

Definition milk_task : Task :=
  mk_task 1 "Buy milk" (Some "") "low" "pending" (morning_clock 0)
          (ymd2ord 2024 1 17).

(** A task created a week before the example clock, so due on its day. *)
Definition due_today_task : Task :=
  mk_task 1 "Pay rent" (Some "") "high" "pending"
          (at_time (ymd2ord 2024 1 3) 9 30 0 0) (ymd2ord 2024 1 10).

Definition store_after_delete : App :=
  exec (run [Add "Buy milk" "" "low"; Add "Ship release" "" "high"; Delete 1])
       (empty_store morning_clock).

Definition store_after_readd : App :=
  exec (run [Add "New" "" "medium"]) store_after_delete.

(** The file after a write that raised: as before when the file could
    not be opened, and with unfinished text when [json.dump] raised. *)
Definition file_after_failed_write (s : App) : file :=
  match disk s (writes s) with
  | WriteFails => Malformed
  | _ => tasks_file s
  end.

(** The task [add_task] builds from a non-blank title when the store is
    [s]: the two [datetime.now()] of the dict display are the next two
    readings of the clock. *)
Definition new_task (title_entry desc_text priority_var : string) (s : App)
  : Task :=
  mk_task (Z.of_nat (length (tasks s)) + 1) (strip title_entry)
          (Some (strip desc_text)) priority_var "pending"
          (clock s (ticks s))
          (strftime_ymd (datetime_add_days (clock s (S (ticks s))) 7)).

(** What the three assignments of [save_changes] make of a task. *)
Definition edited (title_entry desc_text priority_var : string) (t : Task)
  : Task :=
  set_priority priority_var
    (set_description (strip desc_text) (set_title (strip title_entry) t)).

(** The two steps of [filter_tasks] as functions of the lists they read:
    the branch taken on [filter_type] ([prev] is the list left by the
    previous call, kept when no branch is taken), then the search. *)
Definition select_view (filter_type : string) (today : date)
           (prev ts : list Task) : list Task :=
  if String.eqb filter_type "all" then ts
  else if String.eqb filter_type "pending" then
    List.filter (fun t => String.eqb (status t) "pending") ts
  else if String.eqb filter_type "completed" then
    List.filter (fun t => String.eqb (status t) "completed") ts
  else if String.eqb filter_type "high" then
    List.filter (fun t => String.eqb (priority t) "high") ts
  else if String.eqb filter_type "today" then
    List.filter (fun t => due_date t =? today) ts
  else prev.

Definition search_view (sv : string) (ft : list Task) : list Task :=
  if truthy sv then List.filter (search_match (lower sv)) ft else ft.

(** ** The rest of a task card

    The parts of [create_task_card] beside the due date: the checkbox,
    the title, the priority badge and the description. *)

(** The colour scheme of [__init__]. *)
Definition colors : gmap string string :=
  list_to_map
    [("bg", "#1e1e2e"); ("sidebar", "#2a2a3e"); ("card", "#363649");
     ("primary", "#7c3aed"); ("primary_hover", "#6d28d9");
     ("success", "#10b981"); ("warning", "#f59e0b"); ("danger", "#ef4444");
     ("text", "#ffffff"); ("text_secondary", "#a0a0b8"); ("border", "#4a4a5e")].

(** The dict [priority_colors] of [create_task_card]. *)
Definition priority_colors : gmap string string :=
  list_to_map
    [("low", colors !!! "success"); ("medium", colors !!! "warning");
     ("high", colors !!! "danger")].

(** [priority_colors[task['priority']]]: [None] is the [KeyError]. *)
Definition priority_badge_color (t : Task) : option string :=
  priority_colors !! priority t.

(** The initial value of the checkbox. *)
Definition card_checked (t : Task) : bool := String.eqb (status t) "completed".

(** The title is drawn struck through and in the secondary colour unless
    the status is ['pending']. *)
Definition title_struck (t : Task) : bool := negb (String.eqb (status t) "pending").

(** [s[:n]] *)
Fixpoint slice_to (n : nat) (s : string) : string :=
  match n, s with
  | O, _ => EmptyString
  | S _, EmptyString => EmptyString
  | S n', String c s' => String c (slice_to n' s')
  end.

(** The description label: none when [task.get('description')] is
    falsy, else the text, cut to 100 characters and ["..."] when longer. *)
Definition description_label (t : Task) : option string :=
  match description t with
  | None => None
  | Some d =>
      if truthy d then
        Some (if (100 <? String.length d)%nat
              then String.append (slice_to 100 d) "..."
              else d)
      else None
  end.

(** ** Every action of the user *)

Inductive action :=
| ActAdd (title_entry desc_text priority_var : string)
| ActToggle (task_id : Z) (completed : bool)
| ActEdit (task_id : Z) (title_entry desc_text priority_var : string)
| ActDelete (answer : bool) (task_id : Z)
| ActFilter (filter_type : string)
| ActSearch (text : string)
| ActClose.

Definition perform (a : action) : M unit :=
  match a with
  | ActAdd te dt pv => add_task te dt pv
  | ActToggle i c => toggle_task_status i c
  | ActEdit i te dt pv => update i te dt pv
  | ActDelete answer i => delete_task answer i
  | ActFilter ft => filter_tasks ft
  | ActSearch text => search_tasks text
  | ActClose => on_closing
  end.

Fixpoint perform_all (l : list action) : M unit :=
  match l with
  | [] => mret tt
  | a :: l' => perform a;; perform_all l'
  end.

(** The three numbers [update_stats] computes from a collection. *)
Definition stats_of (ts : list Task) : Stats :=
  let n := Z.of_nat (length ts) in
  let c :=
    Z.of_nat (length (List.filter (fun t => String.eqb (status t) "completed") ts)) in
  mk_stats n c (n - c).

(** The condition of the comprehension that [filter_tasks] runs for a
    filter name; [None] for a name it has no branch for. *)
Definition kind_test (filter_type : string) (today : date)
  : option (Task -> bool) :=
  if String.eqb filter_type "all" then Some (fun _ => true)
  else if String.eqb filter_type "pending" then
    Some (fun t => String.eqb (status t) "pending")
  else if String.eqb filter_type "completed" then
    Some (fun t => String.eqb (status t) "completed")
  else if String.eqb filter_type "high" then
    Some (fun t => String.eqb (priority t) "high")
  else if String.eqb filter_type "today" then
    Some (fun t => due_date t =? today)
  else None.

(** The status is one of the two the handlers write. *)
Definition status_known (t : Task) : Prop :=
  status t = "pending" \/ status t = "completed".

(** The priority is one of the three radio buttons of the dialogs. *)
Definition radio_value (p : string) : Prop :=
  p = "low" \/ p = "medium" \/ p = "high".

(** The priorities an action enters come from the radio buttons. *)
Definition enters_radio_value (a : action) : Prop :=
  match a with
  | ActAdd _ _ pv => radio_value pv
  | ActEdit _ _ _ pv => radio_value pv
  | _ => True
  end.

(** No edit of the action is sent with a title that is blank. *)
Definition edits_with_title (a : action) : Prop :=
  match a with
  | ActEdit _ te _ _ => strip te <> ""
  | _ => True
  end.

(** The stored title is not empty and has no white space around it. *)
Definition title_clean (t : Task) : Prop :=
  title t <> "" /\ strip (title t) = title t.

(** The view a handler builds at its end from the collection [ts] it
    leaves: the active filter and the search box applied to [ts], with
    the date of the reading of the clock number [k] after the start. *)
Definition refreshed_view (k : nat) (ts : list Task) (s : App) : list Task :=
  search_view (search_var s)
    (select_view (current_filter s) (dt_date (clock s (ticks s + k)%nat))
       (filtered_tasks s) ts).

(** The three labels of the sidebar show the numbers of the collection. *)
Definition labels_in_sync (s : App) : Prop := stat_labels s = stats_of (tasks s).

(** The action is not a delete that the user confirms. *)
Definition keeps_every_task (a : action) : Prop :=
  match a with
  | ActDelete true _ => False
  | _ => True
  end.

(** The action is not an add. *)
Definition adds_nothing (a : action) : Prop :=
  match a with
  | ActAdd _ _ _ => False
  | _ => True
  end.

(** The fields of a task that no dialog can change. *)
Definition fixed_fields (t : Task) : Z * string * datetime * date :=
  (id t, status t, created_at t, due_date t).

(** Example runs of actions: one without a delete, one without an add. *)
Definition example_day : list action :=
  [ActAdd "Buy milk" "" "low"; ActAdd " Ship release " "v2" "high";
   ActToggle 1 true; ActEdit 2 "Ship it" "today" "medium";
   ActFilter "completed"; ActSearch "milk"; ActDelete false 1; ActClose].

Definition example_cleanup : list action :=
  [ActToggle 1 true; ActDelete true 1; ActFilter "all"].

(** The application started with no file, on a disk that refuses every
    write. *)
Definition locked_store : App :=
  match startup NoFile morning_clock (fun _ => OpenFails) with
  | Return s => s
  | Raise _ => milk_store
  end.

(** The application started on a file that holds one task. *)
Definition reopened_store : App :=
  match startup (Stored [milk_task]) morning_clock good_disk with
  | Return s => s
  | Raise _ => milk_store
  end.

(** * Properties *)

(** ** Strings *)

Section Strings.

Local Open Scope string_scope.


Lemma append_cons (c : ascii) (a b : string) :
  String c a ++ b = String c (a ++ b).
Proof. reflexivity. Qed.







Lemma starts_with_ci_startswith (term s : string) :
  Spec.starts_with_ci term s = startswith (lower term) (lower s).
Proof.
  revert s. induction term as [|a term IH]; intros [|b s]; simpl; try reflexivity.
  now rewrite IH.
Qed.

(** The character-by-character test and the test of the source agree. *)
Lemma occurs_ci_contains (term s : string) :
  Spec.occurs_ci term s = contains (lower term) (lower s).
Proof.
  induction s as [|c s IH]; simpl.
  - now rewrite starts_with_ci_startswith.
  - now rewrite starts_with_ci_startswith, IH.
Qed.

Lemma contains_empty (s : string) : contains "" s = true.
Proof. destruct s; reflexivity. Qed.

Lemma truthy_false (s : string) : truthy s = false <-> s = "".
Proof. destruct s; simpl; split; congruence. Qed.

End Strings.

(** ** The handler monad and the views *)

Section Frames.

Lemma with_ticks_same (s : App) : with_ticks (ticks s) s = s.
Proof. now destruct s. Qed.

Lemma create_task_cards_exec (l : list Task) (s : App) :
  exec (create_task_cards l) s = with_ticks (ticks s + length l)%nat s.
Proof.
  unfold exec. revert s. induction l as [|t l IH]; intros s.
  - simpl. rewrite Nat.add_0_r. now rewrite with_ticks_same.
  - simpl. unfold create_task_card, datetime_now, mbind, M_bind, mret, M_ret.
    simpl. destruct (due_badge (days_until_at t (clock s (ticks s)))) as [u col].
    specialize (IH (with_ticks (S (ticks s)) s)).
    destruct (create_task_cards l _) as [cs s']. simpl in *. subst s'.
    unfold with_ticks. simpl. f_equal. lia.
Qed.

(** Rendering only writes the cards and reads the clock. *)
Lemma display_tasks_exec (s : App) :
  exists cs n, exec display_tasks s = with_cards cs (with_ticks n s).
Proof.
  unfold exec, display_tasks, mbind, M_bind, gets, modify. simpl.
  destruct (filtered_tasks s) as [|t l] eqn:E.
  - exists [], (ticks s). simpl. now rewrite with_ticks_same.
  - pose proof (create_task_cards_exec (t :: l) s) as H. unfold exec in H.
    destruct (create_task_cards (t :: l) s) as [cs s']. simpl in *. subst s'.
    now exists cs, (ticks s + S (length l))%nat.
Qed.

(** What [filter_tasks] leaves behind: the view is the search applied to
    the selection; nothing else but the active filter, the cards and the
    clock position moves. *)
Lemma filter_tasks_exec (filter_type : string) (s : App) :
  exists cs n,
    exec (filter_tasks filter_type) s =
    mk_app (tasks s)
           (search_view (search_var s)
              (select_view filter_type (strftime_ymd (clock s (ticks s)))
                 (filtered_tasks s) (tasks s)))
           filter_type (search_var s) (stat_labels s) cs (tasks_file s)
           (ui s) (clock s) n (disk s) (writes s).
Proof.
  unfold exec, filter_tasks, select_view, search_view, set_active_filter.
  unfold mbind, M_bind, gets, modify, datetime_now, mret, M_ret. simpl.
  destruct s as [ts ft cf sv st cs0 f u clk n0 dsk w]. simpl.
  repeat (match goal with
          | |- context [String.eqb filter_type ?k] =>
              destruct (String.eqb filter_type k)
          end; simpl);
  destruct (truthy sv); simpl;
  match goal with
  | |- context [display_tasks ?s0] =>
      destruct (display_tasks_exec s0) as (cs & n & H); unfold exec in H;
      destruct (display_tasks s0) as [[] s1]; simpl in *; subst s1;
      now exists cs, n
  end.
Qed.

End Frames.

(** ** What each handler leaves behind *)

Section Handlers.

#[local] Arguments filter_tasks : simpl never.

Local Ltac run_monad :=
  unfold exec, unless_raises, mbind, M_bind, mret, M_ret, gets, modify,
    save_tasks, update_stats, showwarning, show_notification, datetime_now;
  simpl.

Local Ltac step_filter :=
  match goal with
  | |- context [filter_tasks ?ft ?s0] =>
      let cs := fresh "cs" in
      let n := fresh "n" in
      let H := fresh "H" in
      let s1 := fresh "s" in
      destruct (filter_tasks_exec ft s0) as (cs & n & H); unfold exec in H;
      destruct (filter_tasks ft s0) as [[] s1]; simpl in H; subst s1; simpl
  end.

Lemma add_task_blank (title_entry desc_text priority_var : string) (s : App) :
  strip title_entry = "" ->
  exec (add_task title_entry desc_text priority_var) s =
  with_ui (ui s ++ [ShowWarning "Warning" "Please enter a task title!"]) s.
Proof. intros H. unfold add_task. rewrite H. reflexivity. Qed.

(** When the write succeeds the handler runs to its end. *)
Lemma add_task_done (title_entry desc_text priority_var : string) (s : App) :
  strip title_entry <> "" ->
  disk s (writes s) = Written ->
  exists view st cs n,
    exec (add_task title_entry desc_text priority_var) s =
    mk_app (tasks s ++ [new_task title_entry desc_text priority_var s])
           view (current_filter s) (search_var s) st cs
           (Stored (tasks s ++ [new_task title_entry desc_text priority_var s]))
           (ui s ++ [Notification "Task added successfully!" "success"])
           (clock s) n (disk s) (S (writes s)).
Proof.
  intros H Hw. unfold add_task, new_task.
  destruct (strip title_entry) as [|c r] eqn:E; [congruence |]. simpl.
  run_monad. rewrite Hw. simpl. step_filter. eauto.
Qed.

(** When the write raises the handler stops there: the collection is
    changed, the view, the cards, the labels and the messages are not. *)
Lemma add_task_raised (title_entry desc_text priority_var : string) (s : App) :
  strip title_entry <> "" ->
  disk s (writes s) <> Written ->
  exec (add_task title_entry desc_text priority_var) s =
  mk_app (tasks s ++ [new_task title_entry desc_text priority_var s])
         (filtered_tasks s) (current_filter s) (search_var s) (stat_labels s)
         (cards s) (file_after_failed_write s) (ui s) (clock s)
         (S (S (ticks s))) (disk s) (S (writes s)).
Proof.
  intros H Hw. unfold add_task, new_task, file_after_failed_write.
  destruct (strip title_entry) as [|c r] eqn:E; [congruence |]. simpl.
  run_monad. destruct (disk s (writes s)); [congruence | |]; reflexivity.
Qed.

Lemma add_task_tasks (title_entry desc_text priority_var : string) (s : App) :
  strip title_entry <> "" ->
  tasks (exec (add_task title_entry desc_text priority_var) s)
  = (tasks s ++ [new_task title_entry desc_text priority_var s])%list.
Proof.
  intros H. destruct (disk s (writes s)) eqn:Hw.
  - destruct (add_task_done _ desc_text priority_var s H Hw)
      as (view & st & cs & n & ->). reflexivity.
  - rewrite add_task_raised by (assumption || (rewrite Hw; discriminate)).
    reflexivity.
  - rewrite add_task_raised by (assumption || (rewrite Hw; discriminate)).
    reflexivity.
Qed.

Lemma toggle_task_status_done (task_id : Z) (completed : bool) (s : App) :
  disk s (writes s) = Written ->
  exists view st cs n,
    exec (toggle_task_status task_id completed) s =
    mk_app (set_first_status task_id
              (if completed then "completed" else "pending") (tasks s))
           view (current_filter s) (search_var s) st cs
           (Stored (set_first_status task_id
                      (if completed then "completed" else "pending") (tasks s)))
           (ui s ++ [Notification
                       (if completed then "Task completed!" else "Task reopened!")
                       (if completed then "success" else "info")])
           (clock s) n (disk s) (S (writes s)).
Proof.
  intros Hw. unfold toggle_task_status. run_monad. rewrite Hw. simpl.
  step_filter. destruct completed; eauto.
Qed.

Lemma toggle_task_status_raised (task_id : Z) (completed : bool) (s : App) :
  disk s (writes s) <> Written ->
  exec (toggle_task_status task_id completed) s =
  mk_app (set_first_status task_id
            (if completed then "completed" else "pending") (tasks s))
         (filtered_tasks s) (current_filter s) (search_var s) (stat_labels s)
         (cards s) (file_after_failed_write s) (ui s) (clock s) (ticks s)
         (disk s) (S (writes s)).
Proof.
  intros Hw. unfold toggle_task_status, file_after_failed_write. run_monad.
  destruct (disk s (writes s)); [congruence | |]; reflexivity.
Qed.

Lemma toggle_task_status_tasks (task_id : Z) (completed : bool) (s : App) :
  tasks (exec (toggle_task_status task_id completed) s)
  = set_first_status task_id (if completed then "completed" else "pending")
      (tasks s).
Proof.
  destruct (disk s (writes s)) eqn:Hw.
  - destruct (toggle_task_status_done task_id completed s Hw)
      as (view & st & cs & n & ->). reflexivity.
  - rewrite toggle_task_status_raised by (rewrite Hw; discriminate). reflexivity.
  - rewrite toggle_task_status_raised by (rewrite Hw; discriminate). reflexivity.
Qed.

Lemma delete_task_done (task_id : Z) (s : App) :
  disk s (writes s) = Written ->
  exists view st cs n,
    exec (delete_task true task_id) s =
    mk_app (List.filter (fun t => negb (id t =? task_id)) (tasks s))
           view (current_filter s) (search_var s) st cs
           (Stored (List.filter (fun t => negb (id t =? task_id)) (tasks s)))
           (ui s ++ [Notification "Task deleted!" "info"])
           (clock s) n (disk s) (S (writes s)).
Proof.
  intros Hw. unfold delete_task. run_monad. rewrite Hw. simpl.
  step_filter. eauto.
Qed.

Lemma delete_task_raised (task_id : Z) (s : App) :
  disk s (writes s) <> Written ->
  exec (delete_task true task_id) s =
  mk_app (List.filter (fun t => negb (id t =? task_id)) (tasks s))
         (filtered_tasks s) (current_filter s) (search_var s) (stat_labels s)
         (cards s) (file_after_failed_write s) (ui s) (clock s) (ticks s)
         (disk s) (S (writes s)).
Proof.
  intros Hw. unfold delete_task, file_after_failed_write. run_monad.
  destruct (disk s (writes s)); [congruence | |]; reflexivity.
Qed.

Lemma delete_task_tasks (task_id : Z) (s : App) :
  tasks (exec (delete_task true task_id) s)
  = List.filter (fun t => negb (id t =? task_id)) (tasks s).
Proof.
  destruct (disk s (writes s)) eqn:Hw.
  - destruct (delete_task_done task_id s Hw) as (view & st & cs & n & ->).
    reflexivity.
  - rewrite delete_task_raised by (rewrite Hw; discriminate). reflexivity.
  - rewrite delete_task_raised by (rewrite Hw; discriminate). reflexivity.
Qed.

Lemma delete_task_declined (task_id : Z) (s : App) :
  exec (delete_task false task_id) s = s.
Proof. reflexivity. Qed.

Lemma edit_task_eval (task_id : Z) (s : App) :
  eval (edit_task task_id) s = fst <$> list_find (fun t => id t = task_id) (tasks s)
  /\ exec (edit_task task_id) s = s.
Proof. split; reflexivity. Qed.

Lemma lookup_edited (te dt pv : string) (i : nat) (ts : list Task) :
  alter (set_priority pv) i
    (alter (set_description (strip dt)) i (alter (set_title (strip te)) i ts)) !! i
  = edited te dt pv <$> ts !! i.
Proof.
  rewrite !list_lookup_alter_eq. now destruct (ts !! i).
Qed.

Lemma alter_edited (te dt pv : string) (i : nat) (ts : list Task) :
  alter (set_priority pv) i
    (alter (set_description (strip dt)) i (alter (set_title (strip te)) i ts))
  = alter (edited te dt pv) i ts.
Proof.
  rewrite !list_alter_alter_eq. reflexivity.
Qed.

Lemma save_changes_blank (i : nat) (te dt pv : string) (s : App) :
  strip te = "" ->
  exec (save_changes i te dt pv) s =
  with_ui (ui s ++ [ShowWarning "Warning" "Please enter a task title!"])
          (with_tasks (alter (edited te dt pv) i (tasks s)) s).
Proof.
  intros H. unfold save_changes. run_monad.
  rewrite lookup_edited, alter_edited.
  destruct (tasks s !! i) as [t|]; simpl; rewrite ?H; reflexivity.
Qed.

Lemma save_changes_done (i : nat) (te dt pv : string) (t : Task) (s : App) :
  strip te <> "" ->
  tasks s !! i = Some t ->
  disk s (writes s) = Written ->
  exists view cs n,
    exec (save_changes i te dt pv) s =
    mk_app (alter (edited te dt pv) i (tasks s))
           view (current_filter s) (search_var s) (stat_labels s) cs
           (Stored (alter (edited te dt pv) i (tasks s)))
           (ui s ++ [Notification "Task updated successfully!" "success"])
           (clock s) n (disk s) (S (writes s)).
Proof.
  intros H Hi Hw. unfold save_changes. run_monad.
  rewrite lookup_edited, alter_edited, Hi. simpl.
  destruct (strip te) as [|c r] eqn:E; [congruence |]. simpl.
  rewrite Hw. simpl. step_filter. eauto.
Qed.

Lemma save_changes_raised (i : nat) (te dt pv : string) (t : Task) (s : App) :
  strip te <> "" ->
  tasks s !! i = Some t ->
  disk s (writes s) <> Written ->
  exec (save_changes i te dt pv) s =
  mk_app (alter (edited te dt pv) i (tasks s))
         (filtered_tasks s) (current_filter s) (search_var s) (stat_labels s)
         (cards s) (file_after_failed_write s) (ui s) (clock s) (ticks s)
         (disk s) (S (writes s)).
Proof.
  intros H Hi Hw. unfold save_changes, file_after_failed_write. run_monad.
  rewrite lookup_edited, alter_edited, Hi. simpl.
  destruct (strip te) as [|c r] eqn:E; [congruence |]. simpl.
  destruct (disk s (writes s)); [congruence | |]; reflexivity.
Qed.

Lemma save_changes_tasks (i : nat) (te dt pv : string) (s : App) :
  tasks (exec (save_changes i te dt pv) s) = alter (edited te dt pv) i (tasks s).
Proof.
  destruct (strip te) as [|c r] eqn:E.
  - now rewrite (save_changes_blank _ _ _ _ _ E).
  - assert (Hne : strip te <> "") by (rewrite E; discriminate).
    destruct (tasks s !! i) as [t|] eqn:Hi.
    + destruct (disk s (writes s)) eqn:Hw.
      * destruct (save_changes_done i te dt pv t s Hne Hi Hw)
          as (view & cs & n & ->). reflexivity.
      * rewrite (save_changes_raised i te dt pv t) by
          (assumption || (rewrite Hw; discriminate)). reflexivity.
      * rewrite (save_changes_raised i te dt pv t) by
          (assumption || (rewrite Hw; discriminate)). reflexivity.
    + unfold save_changes. run_monad.
      rewrite lookup_edited, alter_edited, Hi. reflexivity.
Qed.

Lemma on_closing_exec (s : App) :
  exec on_closing s =
  with_tasks_file
    (match disk s (writes s) with
     | Written => Stored (tasks s)
     | _ => file_after_failed_write s
     end)
    (with_writes (S (writes s)) s).
Proof.
  unfold on_closing, file_after_failed_write. run_monad.
  destruct (disk s (writes s)); destruct s; reflexivity.
Qed.

End Handlers.

(** ** Loading *)

Section Loading.

(** C9. [load_tasks] never raises: with no file, with a file that cannot
    be opened or read, and with a file that [json.load] rejects, it
    returns the empty list; otherwise it returns the list parsed from the
    file. *)
Theorem load_tasks_fail_open :
  (forall f, exists l, load_tasks f = Return l)
  /\ load_tasks NoFile = Return []
  /\ load_tasks Unreadable = Return []
  /\ load_tasks Malformed = Return []
  /\ (forall l, load_tasks (Stored l) = Return l).
Proof.
  repeat split; try reflexivity.
  intros [| | |l]; eexists; reflexivity.
Qed.

(** The application therefore always starts. *)
Lemma startup_returns (f : file) (clk : nat -> datetime)
      (dsk : nat -> write_outcome) :
  exists s, startup f clk dsk = Return s.
Proof. destruct f; eexists; reflexivity. Qed.

End Loading.

(** ** Urgency *)

Section Urgency.

(** The chain of [create_task_card] uses the thresholds of the
    specification. *)
Lemma due_badge_classify (d : Z) : fst (due_badge d) = Spec.classify d.
Proof.
  unfold due_badge, Spec.classify.
  destruct (d <? 0) eqn:E1; [reflexivity |].
  destruct (d =? 0) eqn:E2; [reflexivity |].
  destruct (d <=? 3) eqn:E3; simpl.
  - replace (1 <=? d) with true by lia. reflexivity.
  - now rewrite andb_false_r.
Qed.

Lemma neg_div_small (x m : Z) :
  0 <= x < m -> (- x) / m = if x =? 0 then 0 else -1.
Proof.
  intros H. destruct (Z.eqb_spec x 0) as [->|Hx].
  - apply Z.div_0_l. lia.
  - symmetry. apply Z.div_unique with (r := m - x); lia.
Qed.

(** The number of days the card computes: the difference of the dates,
    less one as soon as the clock is past midnight. *)
Lemma days_until_at_eq (t : Task) (now : datetime) :
  wf_datetime now ->
  days_until_at t now =
  due_date t - dt_date now
  - (if (dt_second now =? 0) && (dt_microsecond now =? 0) then 0 else 1).
Proof.
  intros [Hs Hu]. unfold days_until_at, datetime_sub, timedelta_new. simpl.
  rewrite (Z.sub_0_l (dt_second now)), (Z.sub_0_l (dt_microsecond now)).
  rewrite (neg_div_small (dt_microsecond now) 1000000) by lia.
  destruct (Z.eqb_spec (dt_microsecond now) 0) as [E|E].
  - rewrite Z.add_0_r, andb_true_r.
    rewrite (neg_div_small (dt_second now) 86400) by lia.
    destruct (dt_second now =? 0); lia.
  - rewrite andb_false_r.
    replace (- dt_second now + -1) with (- (dt_second now + 1)) by lia.
    destruct (Z.eqb_spec (dt_second now) 86399) as [E'|E'].
    + rewrite E'. change (- (86399 + 1) / 86400) with (-1). lia.
    + rewrite (neg_div_small (dt_second now + 1) 86400) by lia.
      replace (dt_second now + 1 =? 0) with false by lia. lia.
Qed.

Lemma card_urgency_off_by_one (t : Task) (now : datetime) :
  wf_datetime now ->
  (dt_second now =? 0) && (dt_microsecond now =? 0) = false ->
  fst (due_badge (days_until_at t now))
  = Spec.classify (due_date t - dt_date now - 1).
Proof.
  intros Hwf Hm.
  rewrite due_badge_classify, days_until_at_eq, Hm by assumption. reflexivity.
Qed.

Lemma create_task_card_eval (t : Task) (s : App) :
  eval (create_task_card t) s =
  mk_card t (days_until_at t (clock s (ticks s)))
          (fst (due_badge (days_until_at t (clock s (ticks s)))))
          (snd (due_badge (days_until_at t (clock s (ticks s))))).
Proof.
  unfold eval, create_task_card, datetime_now, mbind, M_bind, mret, M_ret.
  simpl. now destruct (due_badge _).
Qed.

(** At midnight sharp the card and the specification agree. *)
Lemma card_urgency_at_midnight (t : Task) (s : App) :
  dt_second (clock s (ticks s)) = 0 ->
  dt_microsecond (clock s (ticks s)) = 0 ->
  card_urgency (eval (create_task_card t) s)
  = Spec.urgency_of t (dt_date (clock s (ticks s))).
Proof.
  intros Hs Hu. rewrite create_task_card_eval. simpl.
  rewrite due_badge_classify, days_until_at_eq by (split; lia).
  rewrite Hs, Hu. simpl. unfold Spec.urgency_of. f_equal. lia.
Qed.

(** A task due tomorrow is shown as due today. *)
Lemma card_due_tomorrow_shown_today (t : Task) (s : App) :
  wf_datetime (clock s (ticks s)) ->
  (dt_second (clock s (ticks s)) =? 0)
  && (dt_microsecond (clock s (ticks s)) =? 0) = false ->
  due_date t = dt_date (clock s (ticks s)) + 1 ->
  card_urgency (eval (create_task_card t) s) = DueToday.
Proof.
  intros Hwf Hm Hd. rewrite create_task_card_eval. simpl.
  rewrite card_urgency_off_by_one, Hd by assumption.
  now replace (dt_date (clock s (ticks s)) + 1 - dt_date (clock s (ticks s)) - 1)
    with 0 by lia.
Qed.

(** C3. The card does not classify by [due_date - today]: whenever the
    clock is read at a time of day other than midnight sharp, the card of
    a task whose [due_date] is today is the overdue one, where the
    specification says dueToday. *)
Theorem card_due_today_shown_overdue (t : Task) (s : App) :
  wf_datetime (clock s (ticks s)) ->
  (dt_second (clock s (ticks s)) =? 0)
  && (dt_microsecond (clock s (ticks s)) =? 0) = false ->
  due_date t = dt_date (clock s (ticks s)) ->
  card_urgency (eval (create_task_card t) s) = Overdue
  /\ Spec.urgency_of t (dt_date (clock s (ticks s))) = DueToday.
Proof.
  intros Hwf Hm Hd. rewrite create_task_card_eval. simpl.
  rewrite card_urgency_off_by_one by assumption.
  unfold Spec.urgency_of. rewrite Hd.
  replace (dt_date (clock s (ticks s)) - dt_date (clock s (ticks s)) - 1)
    with (-1) by lia.
  replace (dt_date (clock s (ticks s)) - dt_date (clock s (ticks s)))
    with 0 by lia.
  now split.
Qed.

End Urgency.

(** ** Filtering and searching *)

Section Views.

Lemma starts_with_ci_empty (s : string) : Spec.starts_with_ci "" s = true.
Proof. reflexivity. Qed.

Lemma occurs_ci_empty (s : string) : Spec.occurs_ci "" s = true.
Proof. destruct s; reflexivity. Qed.


Lemma filter_all_true {A} (f : A -> bool) (l : list A) :
  (forall x, f x = true) -> List.filter f l = l.
Proof.
  intros H. induction l as [|x l IH]; simpl; [reflexivity |].
  now rewrite H, IH.
Qed.

(** The search block of [filter_tasks] is the search of the
    specification. *)
Lemma search_view_spec (term : string) (l : list Task) :
  search_view term l = Spec.search term l.
Proof.
  unfold search_view, Spec.search. destruct term as [|c term]; simpl.
  - symmetry. apply filter_all_true. intros t. now rewrite occurs_ci_empty.
  - apply List.filter_ext. intros t. unfold search_match.
    now rewrite !occurs_ci_contains.
Qed.

(** The branches of [filter_tasks] are the filter of the specification. *)
Lemma select_view_spec (kind : Spec.filter_kind) (today : date)
      (prev ts : list Task) :
  select_view (filter_type_of kind) today prev ts = Spec.filter kind today ts.
Proof. destruct kind; reflexivity. Qed.

Lemma filter_tasks_view (filter_type : string) (s : App) :
  filtered_tasks (exec (filter_tasks filter_type) s) =
  search_view (search_var s)
    (select_view filter_type (strftime_ymd (clock s (ticks s)))
       (filtered_tasks s) (tasks s)).
Proof. destruct (filter_tasks_exec filter_type s) as (cs & n & ->). reflexivity. Qed.

Lemma filter_tasks_tasks (filter_type : string) (s : App) :
  tasks (exec (filter_tasks filter_type) s) = tasks s.
Proof. destruct (filter_tasks_exec filter_type s) as (cs & n & ->). reflexivity. Qed.

(** C6. Pressing a filter button shows the search of the specification
    applied to the filter of the specification: the tasks are first
    narrowed by the filter kind, and the search term is then matched
    within that result only. The collection itself is left as it is. *)
Theorem filter_tasks_search_of_filter (kind : Spec.filter_kind) (s : App) :
  filtered_tasks (exec (filter_tasks (filter_type_of kind)) s)
  = Spec.search (search_var s)
      (Spec.filter kind (dt_date (clock s (ticks s))) (tasks s))
  /\ incl (filtered_tasks (exec (filter_tasks (filter_type_of kind)) s))
          (Spec.filter kind (dt_date (clock s (ticks s))) (tasks s))
  /\ tasks (exec (filter_tasks (filter_type_of kind)) s) = tasks s.
Proof.
  rewrite filter_tasks_view, filter_tasks_tasks, select_view_spec, search_view_spec.
  unfold strftime_ymd. repeat split.
  intros t Ht. unfold Spec.search in Ht. now apply List.filter_In in Ht.
Qed.

(** The search is not run on the full collection: a task that matches the
    term but not the filter is not shown. *)
Example search_within_filter_only :
  let t1 := mk_task 1 "Buy milk" (Some "") "low" "pending" (morning_clock 0) 0 in
  let t2 := mk_task 2 "Buy bread" (Some "") "high" "pending" (morning_clock 0) 0 in
  let s := with_search_var "buy" (with_tasks [t1; t2] (empty_store morning_clock)) in
  filtered_tasks (exec (filter_tasks "high") s) = [t2]
  /\ Spec.search "buy" (tasks s) = [t1; t2].
Proof. split; reflexivity. Qed.


End Views.

(** ** Reports to the user *)

Section Reports.

Lemma reported_new {A} (c : M A) (s : App) (evs : list ui_event) :
  ui (exec c s) = (ui s ++ evs)%list -> reported c s = evs.
Proof. intros H. unfold reported. rewrite H. apply drop_app_length. Qed.

Lemma reported_warning {A} (c : M A) (s : App) :
  ui (exec c s) = (ui s ++ [ShowWarning "Warning" "Please enter a task title!"])%list ->
  fails_with Spec.ValidationError c s.
Proof. intros H. unfold fails_with. now rewrite (reported_new _ _ _ H). Qed.

Lemma reported_notification {A} (c : M A) (s : App) (message kind : string) :
  ui (exec c s) = (ui s ++ [Notification message kind])%list ->
  succeeds_with message c s /\ forall e, ~ fails_with e c s.
Proof.
  intros H. unfold succeeds_with, fails_with. rewrite (reported_new _ _ _ H).
  split; [now exists kind | intros e; discriminate].
Qed.

End Reports.

(** ** Adding *)

Section Adding.

(** The task of an add, whatever the write does: the new task is the
    last of the collection, numbered with the length plus one, created at
    the first reading of the clock and due seven days after the date of
    the second reading. *)
Lemma add_task_due_date (title_entry desc_text priority_var : string) (s : App) :
  strip title_entry <> "" ->
  exists t,
    tasks (exec (add_task title_entry desc_text priority_var) s) = (tasks s ++ [t])%list
    /\ id t = Z.of_nat (length (tasks s)) + 1
    /\ created_at t = clock s (ticks s)
    /\ due_date t = dt_date (clock s (S (ticks s))) + 7.
Proof.
  intros Hne.
  exists (new_task title_entry desc_text priority_var s).
  now rewrite add_task_tasks.
Qed.

(** When both readings of the clock fall on one day and the write
    succeeds, an add does what the specification says; a blank title is
    refused and changes nothing. *)
Lemma add_task_on_one_day (title_entry desc_text priority_var : string)
      (s : App) :
  dt_date (clock s (S (ticks s))) = dt_date (clock s (ticks s)) ->
  disk s (writes s) = Written ->
  match strip title_entry with
  | EmptyString =>
      fails_with Spec.ValidationError (add_task title_entry desc_text priority_var) s
      /\ tasks (exec (add_task title_entry desc_text priority_var) s) = tasks s
      /\ tasks_file (exec (add_task title_entry desc_text priority_var) s)
         = tasks_file s
  | String _ _ =>
      exists t,
        tasks (exec (add_task title_entry desc_text priority_var) s)
        = (tasks s ++ [t])%list
        /\ title t = strip title_entry
        /\ description t = Some (strip desc_text)
        /\ priority t = priority_var
        /\ status t = "pending"
        /\ created_at t = clock s (ticks s)
        /\ due_date t = dt_date (created_at t) + 7
        /\ persisted (exec (add_task title_entry desc_text priority_var) s)
        /\ succeeds_with "Task added successfully!"
             (add_task title_entry desc_text priority_var) s
  end.
Proof.
  intros Hday Hw. destruct (strip title_entry) as [|c r] eqn:E.
  - rewrite (add_task_blank _ _ _ _ E). simpl. repeat split.
    apply reported_warning. now rewrite (add_task_blank _ _ _ _ E).
  - assert (Hne : strip title_entry <> "") by (rewrite E; discriminate).
    destruct (add_task_done _ desc_text priority_var s Hne Hw)
      as (view & st & cs & n & H).
    exists (new_task title_entry desc_text priority_var s).
    rewrite H. unfold persisted. simpl. rewrite E, Hday.
    repeat split.
    apply (reported_notification _ _ _ "success"). now rewrite H.
Qed.

(** C7. [add_task] reads the clock twice, once for [created_at] and once
    for [due_date]. When midnight passes between the two readings (here
    23:59:59.999999 on 10 January 2024, then 00:00:00 on 11 January), the
    one task that is appended is created on the 10th and due on the 18th,
    where creation date + 7 days is the 17th. *)
Theorem add_task_due_date_across_midnight :
  tasks (exec (add_task "Buy milk" "" "low") (empty_store midnight_clock))
  = [mk_task 1 "Buy milk" (Some "") "low" "pending" (midnight_clock 0)
             (ymd2ord 2024 1 18)]
  /\ dt_date (midnight_clock 0) = ymd2ord 2024 1 10
  /\ Spec.due_date_of (midnight_clock 0) = ymd2ord 2024 1 17.
Proof. repeat split; vm_compute; reflexivity. Qed.

End Adding.

(** ** Identity of tasks *)

Section Identity.

(** Every [add_task] numbers the new task with the length of the
    collection plus one. *)
Lemma add_task_id (title_entry desc_text priority_var : string) (s : App) :
  strip title_entry <> "" ->
  ids (tasks (exec (add_task title_entry desc_text priority_var) s))
  = (ids (tasks s) ++ [Z.of_nat (length (tasks s)) + 1])%list.
Proof.
  intros Hne. rewrite add_task_tasks by assumption.
  unfold ids. now rewrite map_app.
Qed.

(** C1. Ids do not stay unique under add and delete: from the empty
    store, adding two tasks, deleting the task with id 1 and adding a
    third task leaves two tasks with id 2. The collection before the last
    add has the ids [2], so [1 + max(existing ids)] is 3, but the new task
    is numbered [len(self.tasks) + 1 = 2]. *)
Theorem add_after_delete_reuses_id :
  ids (tasks store_after_delete) = [2]
  /\ Spec.next_id (tasks store_after_delete) = 3
  /\ ids (tasks store_after_readd) = [2; 2]
  /\ ~ NoDup (ids (tasks store_after_readd)).
Proof.
  assert (E : ids (tasks store_after_readd) = [2; 2]) by (vm_compute; reflexivity).
  repeat split; try (vm_compute; reflexivity).
  rewrite E. intros H. apply NoDup_cons_1_1 in H. apply H. constructor.
Qed.

(** The id of a deleted task comes back: after deleting the task with
    the highest id, the next task gets that id. *)
Example add_after_deleting_highest_reuses_id :
  ids (tasks (exec (run [Add "Buy milk" "" "low"; Add "Ship release" "" "high";
                         Delete 2; Add "New" "" "medium"])
                   (empty_store morning_clock)))
  = [1; 2].
Proof. vm_compute. reflexivity. Qed.

(** Without deletions the ids are [1 .. n]. *)
Lemma add_task_ids_count (title_entry desc_text priority_var : string) (s : App) :
  strip title_entry <> "" ->
  ids (tasks s) = map Z.of_nat (seq 1 (length (tasks s))) ->
  ids (tasks (exec (add_task title_entry desc_text priority_var) s))
  = map Z.of_nat (seq 1 (S (length (tasks s)))).
Proof.
  intros Hne Hids. rewrite add_task_id, Hids by assumption.
  rewrite seq_S, map_app. simpl. do 2 f_equal. lia.
Qed.

End Identity.

(** ** Editing *)

Section Editing.

Lemma update_exec (task_id : Z) (te dt pv : string) (s : App) :
  exec (update task_id te dt pv) s =
  match list_find (fun t => id t = task_id) (tasks s) with
  | None => s
  | Some (i, _) => exec (save_changes i te dt pv) s
  end.
Proof.
  unfold update, exec, edit_task, mbind, M_bind, gets, mret, M_ret. simpl.
  destruct (list_find _ (tasks s)) as [[i t]|]; reflexivity.
Qed.

(** C2. [save_changes] writes the three fields into the task before it
    looks at the title: an update of a task that is in the collection
    with a title that is empty after [strip] shows the warning and writes
    nothing to the file, but the task now has the empty title, the new
    description and the new priority. *)
Theorem update_blank_title_mutates_task (task_id : Z) (te dt pv : string)
        (i : nat) (t : Task) (s : App) :
  list_find (fun t => id t = task_id) (tasks s) = Some (i, t) ->
  strip te = "" ->
  fails_with Spec.ValidationError (update task_id te dt pv) s
  /\ tasks_file (exec (update task_id te dt pv) s) = tasks_file s
  /\ tasks (exec (update task_id te dt pv) s) !! i
     = Some (mk_task (id t) "" (Some (strip dt)) pv (status t) (created_at t)
                     (due_date t)).
Proof.
  intros Hfind Hblank.
  assert (E : exec (update task_id te dt pv) s
              = with_ui (ui s ++ [ShowWarning "Warning" "Please enter a task title!"])
                        (with_tasks (alter (edited te dt pv) i (tasks s)) s)).
  { rewrite update_exec, Hfind. now apply save_changes_blank. }
  split; [apply reported_warning; now rewrite E |].
  rewrite E. simpl. split; [reflexivity |].
  apply list_find_Some in Hfind as (Hi & _ & _).
  rewrite list_lookup_alter_eq, Hi. simpl.
  unfold edited, set_priority, set_description, set_title. simpl.
  now rewrite Hblank.
Qed.

(** The empty title reaches the file with the next save. *)
Example blank_title_persisted_on_closing :
  tasks_file (exec (update 1 "   " "later" "high";; on_closing) milk_store)
  = Stored [mk_task 1 "" (Some "later") "high" "pending" (morning_clock 0)
                    (ymd2ord 2024 1 17)].
Proof. vm_compute. reflexivity. Qed.

(** With a title that is not blank the update is stored, when the write
    succeeds. *)
Lemma update_done (task_id : Z) (te dt pv : string) (i : nat) (t : Task)
      (s : App) :
  list_find (fun t => id t = task_id) (tasks s) = Some (i, t) ->
  strip te <> "" ->
  disk s (writes s) = Written ->
  tasks (exec (update task_id te dt pv) s) = <[i := edited te dt pv t]> (tasks s)
  /\ persisted (exec (update task_id te dt pv) s)
  /\ succeeds_with "Task updated successfully!" (update task_id te dt pv) s.
Proof.
  intros Hfind Hne Hw. pose proof Hfind as Hf.
  apply list_find_Some in Hf as (Hi & _ & _).
  destruct (save_changes_done i te dt pv t s Hne Hi Hw) as (view & cs & n & H).
  assert (E : exec (update task_id te dt pv) s = exec (save_changes i te dt pv) s)
    by now rewrite update_exec, Hfind.
  unfold persisted. rewrite E, H. simpl. repeat split.
  - rewrite list_insert_alter. apply list_alter_ext; [| reflexivity].
    intros x Hx. congruence.
  - apply (reported_notification _ _ _ "success"). now rewrite E, H.
Qed.

(** An update of an id that is not in the collection does nothing. *)
Lemma update_unknown_id (task_id : Z) (te dt pv : string) (s : App) :
  list_find (fun t => id t = task_id) (tasks s) = None ->
  exec (update task_id te dt pv) s = s.
Proof. intros H. now rewrite update_exec, H. Qed.

End Editing.

(** ** Deleting *)

Section Deleting.

Lemma filter_other_ids_absent (task_id : Z) (l : list Task) :
  ~ In task_id (ids l) ->
  List.filter (fun t => negb (id t =? task_id)) l = l.
Proof.
  induction l as [|t l IH]; simpl; intros H; [reflexivity |].
  destruct (Z.eqb_spec (id t) task_id) as [E|E]; simpl.
  - exfalso. apply H. now left.
  - rewrite IH; [reflexivity |]. intros Hin. apply H. now right.
Qed.

Lemma filter_other_ids_none_left (task_id : Z) (l : list Task) :
  ~ In task_id (ids (List.filter (fun t => negb (id t =? task_id)) l)).
Proof.
  unfold ids. rewrite in_map_iff. intros (t & Hid & Hin).
  apply List.filter_In in Hin as [_ Hne].
  rewrite <- Hid, Z.eqb_refl in Hne. discriminate.
Qed.

Lemma filter_split_length {A} (f : A -> bool) (l : list A) :
  length l
  = (length (List.filter (fun x => negb (f x)) l) + length (List.filter f l))%nat.
Proof.
  induction l as [|x l IH]; simpl; [reflexivity |].
  destruct (f x); simpl; lia.
Qed.

(** C10. One confirmed [delete_task] removes every task whose id is the
    given one and keeps the others in their order: no task with the id is
    left, and the collection is shorter by the number of tasks that had
    it. Two tasks with the same id are reachable (add, add, delete 1,
    add), and one delete of id 2 then removes both. *)
Theorem delete_task_removes_every_match (task_id : Z) (s : App) :
  tasks (exec (delete_task true task_id) s)
  = List.filter (fun t => negb (id t =? task_id)) (tasks s)
  /\ ~ In task_id (ids (tasks (exec (delete_task true task_id) s)))
  /\ length (tasks s)
     = (length (tasks (exec (delete_task true task_id) s))
        + length (List.filter (fun t => (id t =? task_id)%Z) (tasks s)))%nat
  /\ ids (tasks store_after_readd) = [2; 2]
  /\ tasks (exec (delete_task true 2) store_after_readd) = [].
Proof.
  assert (E : tasks (exec (delete_task true task_id) s)
              = List.filter (fun t => negb (id t =? task_id)) (tasks s)).
  { apply delete_task_tasks. }
  split; [exact E |]. rewrite E.
  split; [apply filter_other_ids_none_left |].
  split; [apply filter_split_length |].
  split; vm_compute; reflexivity.
Qed.

(** C4, as stated, fails: deleting an id that is not in the collection
    reports "Task deleted!" and no error. *)
Lemma delete_unknown_id_reports_no_error :
  ~ In 5 (ids (tasks milk_store))
  /\ reported (delete_task true 5) milk_store = [Notification "Task deleted!" "info"]
  /\ ~ fails_with Spec.NotFoundError (delete_task true 5) milk_store.
Proof.
  split; [vm_compute; intuition discriminate |].
  split; [vm_compute; reflexivity |].
  unfold fails_with. vm_compute. discriminate.
Qed.

(** C4, amended. A confirmed [delete_task] of an id that is not in the
    collection does not fail with a not-found error: the collection is as
    before and, when the write of the file succeeds, the file holds it
    and "Task deleted!" is shown. *)
Theorem delete_unknown_id_is_silent (task_id : Z) (s : App) :
  ~ In task_id (ids (tasks s)) ->
  disk s (writes s) = Written ->
  tasks (exec (delete_task true task_id) s) = tasks s
  /\ persisted (exec (delete_task true task_id) s)
  /\ succeeds_with "Task deleted!" (delete_task true task_id) s.
Proof.
  intros Habs Hw.
  destruct (delete_task_done task_id s Hw) as (view & st & cs & n & H).
  split; [rewrite H; simpl; now apply filter_other_ids_absent |].
  split; [unfold persisted; rewrite H; reflexivity |].
  apply (reported_notification _ _ _ "info"). now rewrite H.
Qed.

(** Whatever the write does, the collection is as before. *)
Lemma delete_unknown_id_unchanged (task_id : Z) (s : App) :
  ~ In task_id (ids (tasks s)) ->
  tasks (exec (delete_task true task_id) s) = tasks s.
Proof.
  intros H. rewrite delete_task_tasks. now apply filter_other_ids_absent.
Qed.

End Deleting.

(** ** Completing and reopening *)

Section Toggling.

Lemma set_first_status_find (task_id : Z) (new_status : string) (l : list Task) :
  set_first_status task_id new_status l =
  match list_find (fun t => id t = task_id) l with
  | None => l
  | Some (i, t) => <[i := set_status new_status t]> l
  end.
Proof.
  induction l as [|t l IH]; simpl; [reflexivity |].
  destruct (Z.eqb_spec (id t) task_id) as [E|E].
  - rewrite decide_True by assumption. reflexivity.
  - rewrite decide_False by assumption. rewrite IH.
    destruct (list_find _ l) as [[i t']|]; reflexivity.
Qed.

Lemma list_find_unknown_id (task_id : Z) (l : list Task) :
  ~ In task_id (ids l) -> list_find (fun t => id t = task_id) l = None.
Proof.
  intros H. apply list_find_None. apply Forall_forall. intros t Ht E.
  apply H. unfold ids. apply in_map_iff. exists t. split; [assumption |].
  now apply list_elem_of_In.
Qed.

(** C5, as stated, fails: completing an id that is not in the collection
    reports "Task completed!" and no error. *)
Lemma toggle_unknown_id_reports_no_error :
  ~ In 5 (ids (tasks milk_store))
  /\ reported (toggle_task_status 5 true) milk_store
     = [Notification "Task completed!" "success"]
  /\ ~ fails_with Spec.NotFoundError (toggle_task_status 5 true) milk_store.
Proof.
  split; [vm_compute; intuition discriminate |].
  split; [vm_compute; reflexivity |].
  unfold fails_with. vm_compute. discriminate.
Qed.

(** C5, amended. [toggle_task_status] does not fail with a not-found
    error. When no task has the id, every task is as before; otherwise
    the first task with the id gets the status completed or pending, as
    asked, and the others are as before. In both cases, when the write of
    the file succeeds, the file holds the collection and the success
    message is shown. *)
Theorem toggle_task_status_sets_first_match (task_id : Z) (completed : bool)
        (s : App) :
  disk s (writes s) = Written ->
  tasks (exec (toggle_task_status task_id completed) s)
  = match list_find (fun t => id t = task_id) (tasks s) with
    | None => tasks s
    | Some (i, t) =>
        <[i := set_status (if completed then "completed" else "pending") t]>
          (tasks s)
    end
  /\ persisted (exec (toggle_task_status task_id completed) s)
  /\ succeeds_with (if completed then "Task completed!" else "Task reopened!")
       (toggle_task_status task_id completed) s.
Proof.
  intros Hw.
  destruct (toggle_task_status_done task_id completed s Hw)
    as (view & st & cs & n & H).
  split; [rewrite H; simpl; apply set_first_status_find |].
  split; [unfold persisted; rewrite H; reflexivity |].
  apply (reported_notification _ _ _ (if completed then "success" else "info")).
  now rewrite H.
Qed.

(** Whatever the write does, the collection is changed as said. *)
Lemma toggle_task_status_first_match (task_id : Z) (completed : bool) (s : App) :
  tasks (exec (toggle_task_status task_id completed) s)
  = match list_find (fun t => id t = task_id) (tasks s) with
    | None => tasks s
    | Some (i, t) =>
        <[i := set_status (if completed then "completed" else "pending") t]>
          (tasks s)
    end.
Proof. rewrite toggle_task_status_tasks. apply set_first_status_find. Qed.

(** For an id that is not in the collection this leaves every task as it
    was. *)
Lemma toggle_unknown_id_unchanged (task_id : Z) (completed : bool) (s : App) :
  ~ In task_id (ids (tasks s)) ->
  tasks (exec (toggle_task_status task_id completed) s) = tasks s.
Proof.
  intros H.
  now rewrite toggle_task_status_tasks, set_first_status_find,
    list_find_unknown_id.
Qed.

End Toggling.

(** ** The theorems at concrete stores *)

Section Witnesses.

Lemma card_due_today_shown_overdue_witness :
  wf_datetime (morning_clock 0)
  /\ (dt_second (morning_clock 0) =? 0) && (dt_microsecond (morning_clock 0) =? 0)
     = false
  /\ due_date due_today_task = dt_date (morning_clock 0)
  /\ card_urgency (eval (create_task_card due_today_task)
                      (empty_store morning_clock)) = Overdue
  /\ Spec.urgency_of due_today_task (dt_date (morning_clock 0)) = DueToday.
Proof.
  split; [unfold wf_datetime; vm_compute; intuition congruence |].
  split; [reflexivity |]. split; [reflexivity |].
  apply (card_due_today_shown_overdue due_today_task (empty_store morning_clock)).
  - unfold wf_datetime; vm_compute; intuition congruence.
  - reflexivity.
  - reflexivity.
Defined.

Lemma update_blank_title_mutates_task_witness :
  list_find (fun t => id t = 1) (tasks milk_store) = Some (0%nat, milk_task)
  /\ strip "   " = ""
  /\ fails_with Spec.ValidationError (update 1 "   " "later" "high") milk_store
  /\ tasks_file (exec (update 1 "   " "later" "high") milk_store)
     = tasks_file milk_store
  /\ tasks (exec (update 1 "   " "later" "high") milk_store) !! 0%nat
     = Some (mk_task 1 "" (Some "later") "high" "pending" (morning_clock 0)
                     (ymd2ord 2024 1 17)).
Proof.
  split; [vm_compute; reflexivity |]. split; [reflexivity |].
  apply (update_blank_title_mutates_task 1 "   " "later" "high" 0 milk_task
           milk_store); vm_compute; reflexivity.
Defined.

Lemma delete_unknown_id_is_silent_witness :
  ~ In 5 (ids (tasks milk_store))
  /\ disk milk_store (writes milk_store) = Written
  /\ tasks (exec (delete_task true 5) milk_store) = tasks milk_store
  /\ persisted (exec (delete_task true 5) milk_store)
  /\ succeeds_with "Task deleted!" (delete_task true 5) milk_store.
Proof.
  assert (H : ~ In 5 (ids (tasks milk_store)))
    by (vm_compute; intuition congruence).
  split; [exact H |]. split; [reflexivity |].
  exact (delete_unknown_id_is_silent 5 milk_store H eq_refl).
Defined.

Lemma toggle_task_status_sets_first_match_witness :
  disk milk_store (writes milk_store) = Written
  /\ tasks (exec (toggle_task_status 1 true) milk_store)
     = match list_find (fun t => id t = 1) (tasks milk_store) with
       | None => tasks milk_store
       | Some (i, t) => <[i := set_status "completed" t]> (tasks milk_store)
       end
  /\ persisted (exec (toggle_task_status 1 true) milk_store)
  /\ succeeds_with "Task completed!" (toggle_task_status 1 true) milk_store.
Proof.
  split; [reflexivity |].
  exact (toggle_task_status_sets_first_match 1 true milk_store eq_refl).
Defined.

End Witnesses.

(** ** The window after a handler: view, cards and labels *)

Section Refresh.

#[local] Arguments filter_tasks : simpl never.

Lemma create_task_cards_eval (l : list Task) (s : App) :
  map card_task (eval (create_task_cards l) s) = l.
Proof.
  unfold eval. revert s. induction l as [|t l IH]; intros s; [reflexivity |].
  simpl. unfold create_task_card, datetime_now, mbind, M_bind, mret, M_ret.
  simpl. destruct (due_badge (days_until_at t (clock s (ticks s)))) as [u col].
  specialize (IH (with_ticks (S (ticks s)) s)).
  destruct (create_task_cards l _) as [cs s']. simpl in *. now rewrite IH.
Qed.

Lemma display_tasks_state (s : App) :
  exists cs,
    map card_task cs = filtered_tasks s
    /\ exec display_tasks s
       = with_cards cs (with_ticks (ticks s + length (filtered_tasks s))%nat s).
Proof.
  unfold exec, display_tasks, mbind, M_bind, gets, modify. simpl.
  destruct (filtered_tasks s) as [|t l] eqn:E.
  - exists []. simpl. now rewrite Nat.add_0_r, with_ticks_same.
  - pose proof (create_task_cards_exec (t :: l) s) as H.
    pose proof (create_task_cards_eval (t :: l) s) as H'.
    unfold exec, eval in H, H'.
    destruct (create_task_cards (t :: l) s) as [cs s']. simpl in *. subst s'.
    now exists cs.
Qed.

(** The state [filter_tasks] leaves, in full: the view, one card for
    each task of the view, and the readings of the clock it used. *)
Lemma filter_tasks_state (filter_type : string) (s : App) :
  exists cs,
    map card_task cs
    = search_view (search_var s)
        (select_view filter_type (dt_date (clock s (ticks s)))
           (filtered_tasks s) (tasks s))
    /\ exec (filter_tasks filter_type) s
       = mk_app (tasks s)
           (search_view (search_var s)
              (select_view filter_type (dt_date (clock s (ticks s)))
                 (filtered_tasks s) (tasks s)))
           filter_type (search_var s) (stat_labels s) cs (tasks_file s)
           (ui s) (clock s)
           (ticks s + (if String.eqb filter_type "today" then 1 else 0)
            + length (search_view (search_var s)
                        (select_view filter_type (dt_date (clock s (ticks s)))
                           (filtered_tasks s) (tasks s))))%nat
           (disk s) (writes s).
Proof.
  unfold exec, filter_tasks, select_view, search_view, set_active_filter.
  unfold mbind, M_bind, gets, modify, datetime_now, mret, M_ret, strftime_ymd.
  simpl.
  destruct s as [ts ft cf sv st cs0 f u clk n0 dsk w]. simpl.
  destruct (String.eqb_spec filter_type "all") as [->|E1]; simpl;
  [| destruct (String.eqb_spec filter_type "pending") as [->|E2]; simpl;
   [| destruct (String.eqb_spec filter_type "completed") as [->|E3]; simpl;
    [| destruct (String.eqb_spec filter_type "high") as [->|E4]; simpl;
     [| destruct (String.eqb_spec filter_type "today") as [->|E5]; simpl]]]];
  destruct (truthy sv); simpl;
  match goal with
  | |- context [display_tasks ?s0] =>
      destruct (display_tasks_state s0) as (cs & Hc & H); unfold exec in H;
      destruct (display_tasks s0) as [[] s1]; simpl in *; subst s1;
      exists cs; split; [exact Hc |]; unfold with_cards, with_ticks; simpl;
      f_equal; lia
  end.
Qed.

Local Ltac run_monad :=
  unfold exec, unless_raises, mbind, M_bind, mret, M_ret, gets, modify,
    save_tasks, update_stats, showwarning, show_notification, datetime_now;
  simpl.

Local Ltac step_refresh :=
  match goal with
  | |- context [filter_tasks ?ft ?s0] =>
      let cs := fresh "cs" in
      let Hc := fresh "Hc" in
      let H := fresh "H" in
      let s1 := fresh "s" in
      destruct (filter_tasks_state ft s0) as (cs & Hc & H); unfold exec in H;
      destruct (filter_tasks ft s0) as [[] s1]; simpl in H, Hc; subst s1; simpl;
      exists cs; split; [exact Hc |]; eexists; reflexivity
  end.

Lemma add_task_state (te dt pv : string) (s : App) :
  strip te <> "" ->
  disk s (writes s) = Written ->
  exists cs,
    map card_task cs = refreshed_view 2 (tasks s ++ [new_task te dt pv s]) s
    /\ exists n,
      exec (add_task te dt pv) s =
      mk_app (tasks s ++ [new_task te dt pv s])
             (refreshed_view 2 (tasks s ++ [new_task te dt pv s]) s)
             (current_filter s) (search_var s)
             (stats_of (tasks s ++ [new_task te dt pv s])) cs
             (Stored (tasks s ++ [new_task te dt pv s]))
             (ui s ++ [Notification "Task added successfully!" "success"])
             (clock s) n (disk s) (S (writes s)).
Proof.
  intros H Hw. unfold add_task, new_task, refreshed_view.
  destruct (strip te) as [|c r] eqn:E; [congruence |]. simpl.
  run_monad. rewrite Hw. simpl. replace (ticks s + 2)%nat with (S (S (ticks s))) by lia.
  step_refresh.
Qed.

Lemma toggle_task_status_state (task_id : Z) (completed : bool) (s : App) :
  disk s (writes s) = Written ->
  exists cs,
    map card_task cs
    = refreshed_view 0
        (set_first_status task_id (if completed then "completed" else "pending")
           (tasks s)) s
    /\ exists n,
      exec (toggle_task_status task_id completed) s =
      mk_app (set_first_status task_id
                (if completed then "completed" else "pending") (tasks s))
             (refreshed_view 0
                (set_first_status task_id
                   (if completed then "completed" else "pending") (tasks s)) s)
             (current_filter s) (search_var s)
             (stats_of (set_first_status task_id
                          (if completed then "completed" else "pending") (tasks s)))
             cs
             (Stored (set_first_status task_id
                        (if completed then "completed" else "pending") (tasks s)))
             (ui s ++ [Notification
                         (if completed then "Task completed!" else "Task reopened!")
                         (if completed then "success" else "info")])
             (clock s) n (disk s) (S (writes s)).
Proof.
  intros Hw. unfold toggle_task_status, refreshed_view. run_monad.
  rewrite Hw. simpl. rewrite Nat.add_0_r. destruct completed; step_refresh.
Qed.

Lemma delete_task_state (task_id : Z) (s : App) :
  disk s (writes s) = Written ->
  exists cs,
    map card_task cs
    = refreshed_view 0 (List.filter (fun t => negb (id t =? task_id)) (tasks s)) s
    /\ exists n,
      exec (delete_task true task_id) s =
      mk_app (List.filter (fun t => negb (id t =? task_id)) (tasks s))
             (refreshed_view 0
                (List.filter (fun t => negb (id t =? task_id)) (tasks s)) s)
             (current_filter s) (search_var s)
             (stats_of (List.filter (fun t => negb (id t =? task_id)) (tasks s)))
             cs
             (Stored (List.filter (fun t => negb (id t =? task_id)) (tasks s)))
             (ui s ++ [Notification "Task deleted!" "info"])
             (clock s) n (disk s) (S (writes s)).
Proof.
  intros Hw. unfold delete_task, refreshed_view. run_monad.
  rewrite Hw. simpl. rewrite Nat.add_0_r.
  step_refresh.
Qed.

Lemma save_changes_state (i : nat) (te dt pv : string) (t : Task) (s : App) :
  strip te <> "" ->
  tasks s !! i = Some t ->
  disk s (writes s) = Written ->
  exists cs,
    map card_task cs = refreshed_view 0 (alter (edited te dt pv) i (tasks s)) s
    /\ exists n,
      exec (save_changes i te dt pv) s =
      mk_app (alter (edited te dt pv) i (tasks s))
             (refreshed_view 0 (alter (edited te dt pv) i (tasks s)) s)
             (current_filter s) (search_var s) (stat_labels s) cs
             (Stored (alter (edited te dt pv) i (tasks s)))
             (ui s ++ [Notification "Task updated successfully!" "success"])
             (clock s) n (disk s) (S (writes s)).
Proof.
  intros H Hi Hw. unfold save_changes, refreshed_view. run_monad.
  rewrite lookup_edited, alter_edited, Hi. simpl.
  destruct (strip te) as [|c r] eqn:E; [congruence |]. simpl.
  rewrite Hw. simpl. rewrite Nat.add_0_r. step_refresh.
Qed.

End Refresh.

(** ** What every action keeps *)

Section Invariants.

Lemma exec_seq {A B} (c : M A) (k : M B) (s : App) :
  exec (c;; k) s = exec k (exec c s).
Proof. unfold exec, mbind, M_bind. now destruct (c s). Qed.

Lemma perform_all_cons (a : action) (l : list action) (s : App) :
  exec (perform_all (a :: l)) s = exec (perform_all l) (exec (perform a) s).
Proof. apply exec_seq. Qed.

(** A property kept by every action that meets [Q] is kept by every run
    of such actions. *)
Lemma perform_all_keeps (P : App -> Prop) (Q : action -> Prop) :
  (forall a s, Q a -> P s -> P (exec (perform a) s)) ->
  forall l s, Forall Q l -> P s -> P (exec (perform_all l) s).
Proof.
  intros Hstep l. induction l as [|a l IH]; intros s HQ HP; [exact HP |].
  rewrite perform_all_cons. inversion HQ; subst. apply IH; auto.
Qed.

Lemma search_tasks_exec (text : string) (s : App) :
  exec (search_tasks text) s
  = exec (filter_tasks (current_filter s)) (with_search_var text s).
Proof. reflexivity. Qed.

(** What an action makes of the collection, whatever else it does. *)
Lemma perform_tasks (a : action) (s : App) :
  tasks (exec (perform a) s) =
  match a with
  | ActAdd te dt pv =>
      if truthy (strip te) then (tasks s ++ [new_task te dt pv s])%list
      else tasks s
  | ActToggle i c =>
      set_first_status i (if c then "completed" else "pending") (tasks s)
  | ActEdit i te dt pv =>
      match list_find (fun t => id t = i) (tasks s) with
      | None => tasks s
      | Some (j, _) => alter (edited te dt pv) j (tasks s)
      end
  | ActDelete true i => List.filter (fun t => negb (id t =? i)) (tasks s)
  | _ => tasks s
  end.
Proof.
  destruct a as [te dt pv|i c|i te dt pv|[|] i|ft|text|];
    cbv beta iota delta [perform].
  - destruct (strip te) as [|ch r] eqn:E; simpl.
    + now rewrite (add_task_blank _ _ _ _ E).
    + assert (Hne : strip te <> "") by (rewrite E; discriminate).
      rewrite (add_task_tasks te dt pv s Hne). reflexivity.
  - apply toggle_task_status_tasks.
  - rewrite update_exec.
    destruct (list_find _ (tasks s)) as [[j t]|] eqn:Hf; [| reflexivity].
    apply save_changes_tasks.
  - apply delete_task_tasks.
  - reflexivity.
  - apply filter_tasks_tasks.
  - rewrite search_tasks_exec. apply (filter_tasks_tasks _ (with_search_var text s)).
  - now rewrite on_closing_exec.
Qed.

(** No action changes what the disk will do. *)
Lemma perform_disk (a : action) (s : App) :
  disk (exec (perform a) s) = disk s.
Proof.
  destruct a as [te dt pv|i c|i te dt pv|[|] i|ft|text|];
    cbv beta iota delta [perform].
  - destruct (strip te) as [|ch r] eqn:E.
    + now rewrite (add_task_blank _ _ _ _ E).
    + assert (Hne : strip te <> "") by (rewrite E; discriminate).
      destruct (disk s (writes s)) eqn:Hw.
      * destruct (add_task_done te dt pv s Hne Hw) as (view & st & cs & n & ->).
        reflexivity.
      * rewrite add_task_raised by (assumption || (rewrite Hw; discriminate)).
        reflexivity.
      * rewrite add_task_raised by (assumption || (rewrite Hw; discriminate)).
        reflexivity.
  - destruct (disk s (writes s)) eqn:Hw.
    + destruct (toggle_task_status_done i c s Hw) as (view & st & cs & n & ->).
      reflexivity.
    + rewrite toggle_task_status_raised by (rewrite Hw; discriminate).
      reflexivity.
    + rewrite toggle_task_status_raised by (rewrite Hw; discriminate).
      reflexivity.
  - rewrite update_exec.
    destruct (list_find _ (tasks s)) as [[j t]|] eqn:Hf; [| reflexivity].
    destruct (strip te) as [|ch r] eqn:E.
    + now rewrite (save_changes_blank _ _ _ _ _ E).
    + assert (Hne : strip te <> "") by (rewrite E; discriminate).
      apply list_find_Some in Hf as (Hj & _ & _).
      destruct (disk s (writes s)) eqn:Hw.
      * destruct (save_changes_done j te dt pv t s Hne Hj Hw)
          as (view & cs & n & ->). reflexivity.
      * rewrite (save_changes_raised j te dt pv t) by
          (assumption || (rewrite Hw; discriminate)). reflexivity.
      * rewrite (save_changes_raised j te dt pv t) by
          (assumption || (rewrite Hw; discriminate)). reflexivity.
  - destruct (disk s (writes s)) eqn:Hw.
    + destruct (delete_task_done i s Hw) as (view & st & cs & n & ->).
      reflexivity.
    + rewrite delete_task_raised by (rewrite Hw; discriminate). reflexivity.
    + rewrite delete_task_raised by (rewrite Hw; discriminate). reflexivity.
  - reflexivity.
  - destruct (filter_tasks_state ft s) as (cs & _ & ->). reflexivity.
  - rewrite search_tasks_exec.
    destruct (filter_tasks_state (current_filter s) (with_search_var text s))
      as (cs & _ & ->). reflexivity.
  - now rewrite on_closing_exec.
Qed.

(** The labels and the file after an action whose write, if it does one,
    succeeds. *)
Lemma perform_stat_labels (a : action) (s : App) :
  disk s (writes s) = Written ->
  stat_labels (exec (perform a) s) =
  match a with
  | ActAdd te dt pv =>
      if truthy (strip te) then stats_of (tasks s ++ [new_task te dt pv s])
      else stat_labels s
  | ActToggle i c =>
      stats_of (set_first_status i (if c then "completed" else "pending") (tasks s))
  | ActDelete true i =>
      stats_of (List.filter (fun t => negb (id t =? i)) (tasks s))
  | _ => stat_labels s
  end.
Proof.
  intros Hw.
  destruct a as [te dt pv|i c|i te dt pv|[|] i|ft|text|];
    cbv beta iota delta [perform].
  - destruct (strip te) as [|ch r] eqn:E; simpl.
    + now rewrite (add_task_blank _ _ _ _ E).
    + assert (Hne : strip te <> "") by (rewrite E; discriminate).
      destruct (add_task_state te dt pv s Hne Hw) as (cs & _ & n & ->).
      reflexivity.
  - destruct (toggle_task_status_state i c s Hw) as (cs & _ & n & ->).
    reflexivity.
  - rewrite update_exec.
    destruct (list_find _ (tasks s)) as [[j t]|] eqn:Hf; [| reflexivity].
    destruct (strip te) as [|ch r] eqn:E.
    + now rewrite (save_changes_blank _ _ _ _ _ E).
    + assert (Hne : strip te <> "") by (rewrite E; discriminate).
      apply list_find_Some in Hf as (Hj & _ & _).
      destruct (save_changes_state j te dt pv t s Hne Hj Hw)
        as (cs & _ & n & ->).
      reflexivity.
  - destruct (delete_task_state i s Hw) as (cs & _ & n & ->). reflexivity.
  - reflexivity.
  - destruct (filter_tasks_state ft s) as (cs & _ & ->). reflexivity.
  - rewrite search_tasks_exec.
    destruct (filter_tasks_state (current_filter s) (with_search_var text s))
      as (cs & _ & ->). reflexivity.
  - rewrite on_closing_exec, ?Hw. reflexivity.
Qed.

Lemma perform_tasks_file (a : action) (s : App) :
  disk s (writes s) = Written ->
  tasks_file (exec (perform a) s) =
  match a with
  | ActAdd te dt pv =>
      if truthy (strip te) then Stored (tasks s ++ [new_task te dt pv s])
      else tasks_file s
  | ActToggle i c =>
      Stored (set_first_status i (if c then "completed" else "pending") (tasks s))
  | ActEdit i te dt pv =>
      match list_find (fun t => id t = i) (tasks s) with
      | None => tasks_file s
      | Some (j, _) =>
          if truthy (strip te) then Stored (alter (edited te dt pv) j (tasks s))
          else tasks_file s
      end
  | ActDelete true i => Stored (List.filter (fun t => negb (id t =? i)) (tasks s))
  | ActClose => Stored (tasks s)
  | _ => tasks_file s
  end.
Proof.
  intros Hw.
  destruct a as [te dt pv|i c|i te dt pv|[|] i|ft|text|];
    cbv beta iota delta [perform].
  - destruct (strip te) as [|ch r] eqn:E; simpl.
    + now rewrite (add_task_blank _ _ _ _ E).
    + assert (Hne : strip te <> "") by (rewrite E; discriminate).
      destruct (add_task_state te dt pv s Hne Hw) as (cs & _ & n & ->).
      reflexivity.
  - destruct (toggle_task_status_state i c s Hw) as (cs & _ & n & ->).
    reflexivity.
  - rewrite update_exec.
    destruct (list_find _ (tasks s)) as [[j t]|] eqn:Hf; [| reflexivity].
    destruct (strip te) as [|ch r] eqn:E.
    + now rewrite (save_changes_blank _ _ _ _ _ E).
    + assert (Hne : strip te <> "") by (rewrite E; discriminate).
      apply list_find_Some in Hf as (Hj & _ & _).
      destruct (save_changes_state j te dt pv t s Hne Hj Hw)
        as (cs & _ & n & ->).
      reflexivity.
  - destruct (delete_task_state i s Hw) as (cs & _ & n & ->). reflexivity.
  - reflexivity.
  - destruct (filter_tasks_state ft s) as (cs & _ & ->). reflexivity.
  - rewrite search_tasks_exec.
    destruct (filter_tasks_state (current_filter s) (with_search_var text s))
      as (cs & _ & ->). reflexivity.
  - rewrite on_closing_exec, ?Hw. reflexivity.
Qed.

(** The numbers of the labels only depend on the statuses. *)
Lemma stats_of_statuses (l1 l2 : list Task) :
  map status l1 = map status l2 -> stats_of l1 = stats_of l2.
Proof.
  intros H.
  assert (Hc : forall l : list Task,
    length (List.filter (fun t => String.eqb (status t) "completed") l)
    = length (List.filter (fun st => String.eqb st "completed") (map status l))).
  { induction l as [|t l IH]; simpl; [reflexivity |].
    destruct (String.eqb (status t) "completed"); simpl; now rewrite IH. }
  unfold stats_of. rewrite !Hc, H.
  replace (length l1) with (length l2); [reflexivity |].
  now rewrite <- (length_map status l1), H, length_map.
Qed.

Lemma edited_status (te dt pv : string) (t : Task) :
  status (edited te dt pv t) = status t.
Proof. reflexivity. Qed.

Lemma map_alter_same {A B} (f : A -> B) (g : A -> A) (i : nat) (l : list A) :
  (forall x, f (g x) = f x) -> map f (alter g i l) = map f l.
Proof.
  intros H. unfold alter. revert i.
  induction l as [|x l IH]; intros [|i]; simpl; rewrite ?H, ?IH; reflexivity.
Qed.

(** The window at the start: everything the file held, under the "all"
    filter with an empty search box. *)
Lemma startup_state (f : file) (clk : nat -> datetime)
      (dsk : nat -> write_outcome) (s0 : App) :
  startup f clk dsk = Return s0 ->
  exists cs,
    map card_task cs = match f with Stored ts => ts | _ => [] end
    /\ s0 = mk_app (match f with Stored ts => ts | _ => [] end)
                   (match f with Stored ts => ts | _ => [] end)
                   "all" "" (stats_of (match f with Stored ts => ts | _ => [] end))
                   cs f [] clk
                   (length (match f with Stored ts => ts | _ => [] end))
                   dsk 0%nat.
Proof.
  intros Hs. unfold startup in Hs.
  assert (Hl : load_tasks f = Return (match f with Stored ts => ts | _ => [] end))
    by now destruct f.
  rewrite Hl in Hs. injection Hs as <-.
  rewrite !exec_seq.
  match goal with
  | |- context [exec display_tasks ?s1] =>
      destruct (display_tasks_state s1) as (cs & Hc & ->)
  end.
  exists cs. split; [exact Hc |]. reflexivity.
Qed.

(** X1. As long as every write of the file succeeds, the three labels
    of the sidebar show the numbers of the collection: they do when the
    application has started, whatever the file held, and after every run
    of actions. In particular the pending label is the total less the
    completed one. *)
Theorem labels_always_in_sync (f : file) (clk : nat -> datetime)
        (dsk : nat -> write_outcome) (l : list action) (s0 : App) :
  startup f clk dsk = Return s0 ->
  (forall n, dsk n = Written) ->
  labels_in_sync (exec (perform_all l) s0)
  /\ pending (stat_labels (exec (perform_all l) s0))
     = total (stat_labels (exec (perform_all l) s0))
       - completed (stat_labels (exec (perform_all l) s0))
  /\ total (stat_labels (exec (perform_all l) s0))
     = Z.of_nat (length (tasks (exec (perform_all l) s0))).
Proof.
  intros Hs Hd.
  assert (H : (forall n, disk (exec (perform_all l) s0) n = Written)
              /\ labels_in_sync (exec (perform_all l) s0)).
  { apply (perform_all_keeps
             (fun s => (forall n, disk s n = Written) /\ labels_in_sync s)
             (fun _ => True)).
    - clear. intros a s _ [Hd Hin]. split.
      + intros n. now rewrite perform_disk.
      + unfold labels_in_sync in *.
        rewrite perform_stat_labels, perform_tasks by apply Hd.
        destruct a as [te dt pv|i c|i te dt pv|[|] i|ft|text|]; try assumption;
          try reflexivity.
        * now destruct (truthy (strip te)).
        * destruct (list_find _ (tasks s)) as [[j t]|]; [| assumption].
          rewrite Hin. apply stats_of_statuses. symmetry.
          now apply map_alter_same.
    - now apply Forall_forall.
    - destruct (startup_state f clk dsk s0 Hs) as (cs & _ & ->).
      split; [exact Hd | reflexivity]. }
  destruct H as [_ H].
  split; [exact H |]. rewrite H. unfold stats_of. simpl. split; reflexivity.
Qed.

(** When a write raises, the labels stay behind: after an add on a disk
    that refuses the write there is one task and the labels, the view and
    the cards still show none, and no message is shown. *)
Example labels_stale_after_failed_write :
  length (tasks (exec (add_task "Buy milk" "" "low") locked_store)) = 1%nat
  /\ stat_labels (exec (add_task "Buy milk" "" "low") locked_store)
     = mk_stats 0 0 0
  /\ filtered_tasks (exec (add_task "Buy milk" "" "low") locked_store) = []
  /\ cards (exec (add_task "Buy milk" "" "low") locked_store) = []
  /\ tasks_file (exec (add_task "Buy milk" "" "low") locked_store) = NoFile
  /\ reported (add_task "Buy milk" "" "low") locked_store = [].
Proof. repeat split; vm_compute; reflexivity. Qed.

(** A property of tasks is kept by an action when the task an add
    builds has it and the rewriting of a toggle and of an edit keep it. *)
Lemma perform_Forall (P : Task -> Prop) (a : action) (s : App) :
  (forall te dt pv, a = ActAdd te dt pv -> strip te <> "" ->
     P (new_task te dt pv s)) ->
  (forall i c t, a = ActToggle i c -> P t ->
     P (set_status (if c then "completed" else "pending") t)) ->
  (forall i te dt pv t, a = ActEdit i te dt pv -> P t -> P (edited te dt pv t)) ->
  Forall P (tasks s) -> Forall P (tasks (exec (perform a) s)).
Proof.
  intros Hadd Htog Hed HP. rewrite perform_tasks.
  destruct a as [te dt pv|i c|i te dt pv|[|] i|ft|text|]; try assumption.
  - destruct (strip te) as [|ch r] eqn:E; simpl; [assumption |].
    apply Forall_app_2; [assumption |]. constructor; [| constructor].
    apply Hadd; [reflexivity |]. rewrite E. discriminate.
  - specialize (Htog i c).
    induction (tasks s) as [|t l IH]; simpl; [constructor |].
    inversion HP; subst.
    destruct (id t =? i); constructor; auto.
  - destruct (list_find _ (tasks s)) as [[j t]|]; [| assumption].
    apply Forall_alter; [assumption |]. intros x _ Hx. now apply (Hed i te dt pv).
  - apply Forall_forall. intros t Ht. apply list_elem_of_In in Ht.
    apply List.filter_In in Ht as [Ht _].
    rewrite Forall_forall in HP. apply HP. now apply list_elem_of_In.
Qed.

(** X2. Every task keeps a status that is ['pending'] or ['completed']:
    if all tasks of the collection have one before a run of actions, all
    have one after it. *)
Theorem statuses_stay_known (l : list action) (s : App) :
  Forall status_known (tasks s) ->
  Forall status_known (tasks (exec (perform_all l) s)).
Proof.
  apply (perform_all_keeps (fun s => Forall status_known (tasks s))
                           (fun _ => True)).
  - clear. intros a s _ H. apply perform_Forall; try assumption.
    + intros te dt pv _ _. now left.
    + intros i c t _ _. destruct c; [now right | now left].
    + intros i te dt pv t _ Ht. exact Ht.
  - now apply Forall_forall.
Qed.

Lemma priority_badge_color_radio (t : Task) :
  is_Some (priority_badge_color t) <-> radio_value (priority t).
Proof.
  unfold priority_badge_color, priority_colors, radio_value. simpl.
  rewrite !lookup_insert, lookup_empty.
  repeat case_decide; (split; intros Hr);
    try (eexists; reflexivity); try (symmetry in H; tauto);
    try (symmetry in H0; tauto); try (symmetry in H1; tauto).
  - destruct Hr as [x Hx]. discriminate.
  - destruct Hr as [Hr | [Hr | Hr]]; congruence.
Qed.

(** X3. The badge of a card reads the colour of the priority from a dict
    with the keys low, medium and high, so it has a colour exactly for
    these three priorities. As long as the priorities entered in the
    dialogs are values of the radio buttons, every task of the collection
    keeps a priority with a colour. *)
Theorem priority_badge_always_found (l : list action) (s : App) :
  Forall enters_radio_value l ->
  Forall (fun t => radio_value (priority t)) (tasks s) ->
  Forall (fun t => is_Some (priority_badge_color t))
         (tasks (exec (perform_all l) s))
  /\ (forall t, is_Some (priority_badge_color t) <-> radio_value (priority t)).
Proof.
  intros Hl Hs. split; [| apply priority_badge_color_radio].
  apply (Forall_impl (fun t => radio_value (priority t))).
  2: { intros t. apply priority_badge_color_radio. }
  revert l s Hl Hs.
  apply (perform_all_keeps (fun s => Forall (fun t => radio_value (priority t))
                                            (tasks s))).
  intros a s Ha H. apply perform_Forall; try assumption.
  - intros te dt pv -> _. exact Ha.
  - intros i c t _ Ht. exact Ht.
  - intros i te dt pv t -> _. exact Ha.
Qed.

(** A priority that is none of the three has no colour: the lookup is a
    [KeyError]. *)
Lemma priority_badge_missing (t : Task) :
  ~ radio_value (priority t) -> priority_badge_color t = None.
Proof.
  intros H. destruct (priority_badge_color t) eqn:E; [| reflexivity].
  exfalso. apply H. apply priority_badge_color_radio. now rewrite E.
Qed.

(** X4. As long as every write of the file succeeds, a file that holds
    the collection keeps holding it, through every run of actions in
    which no edit is sent with a title that is blank. *)
Theorem file_follows_collection (l : list action) (s : App) :
  Forall edits_with_title l ->
  (forall n, disk s n = Written) ->
  persisted s ->
  persisted (exec (perform_all l) s).
Proof.
  intros Hl Hd Hp.
  assert (H : (forall n, disk (exec (perform_all l) s) n = Written)
              /\ persisted (exec (perform_all l) s)); [| now destruct H].
  revert l s Hl Hd Hp.
  assert (Hstep : forall a s, edits_with_title a ->
            (forall n, disk s n = Written) /\ persisted s ->
            (forall n, disk (exec (perform a) s) n = Written)
            /\ persisted (exec (perform a) s)).
  { intros a s Ha [Hd H]. split; [intros n; now rewrite perform_disk |].
    unfold persisted in *. rewrite perform_tasks_file, perform_tasks by apply Hd.
    destruct a as [te dt pv|i c|i te dt pv|[|] i|ft|text|]; try assumption;
      try reflexivity.
    - now destruct (truthy (strip te)).
    - destruct (list_find _ (tasks s)) as [[j t]|]; [| assumption].
      simpl in Ha. destruct (strip te); [congruence | reflexivity]. }
  intros l s Hl Hd Hp.
  apply (perform_all_keeps
           (fun s => (forall n, disk s n = Written) /\ persisted s)
           edits_with_title Hstep l s Hl). now split.
Qed.

(** X5. Closing the window, when the write of the file succeeds, and
    starting the application again brings the collection back as it was,
    shown in full under the "all" filter with an empty search box, one
    card for each task, and with the labels counting it. *)
Theorem restart_restores_collection (s : App) (clk : nat -> datetime)
        (dsk : nat -> write_outcome) :
  disk s (writes s) = Written ->
  exists s',
    startup (tasks_file (exec on_closing s)) clk dsk = Return s'
    /\ tasks s' = tasks s
    /\ filtered_tasks s' = tasks s
    /\ map card_task (cards s') = tasks s
    /\ current_filter s' = "all"
    /\ search_var s' = ""
    /\ labels_in_sync s'.
Proof.
  intros Hw.
  destruct (startup_returns (tasks_file (exec on_closing s)) clk dsk) as [s' Hs].
  exists s'. split; [exact Hs |].
  destruct (startup_state _ _ _ _ Hs) as (cs & Hc & ->).
  rewrite on_closing_exec, Hw in *.
  simpl in *. repeat split; try reflexivity. exact Hc.
Qed.

Lemma set_first_status_ids (i : Z) (st : string) (l : list Task) :
  ids (set_first_status i st l) = ids l.
Proof.
  induction l as [|t l IH]; simpl; [reflexivity |].
  destruct (id t =? i); simpl; [reflexivity | now rewrite IH].
Qed.

Lemma set_first_status_length (i : Z) (st : string) (l : list Task) :
  length (set_first_status i st l) = length l.
Proof.
  induction l as [|t l IH]; simpl; [reflexivity |].
  destruct (id t =? i); simpl; [reflexivity | now rewrite IH].
Qed.

Lemma NoDup_count_up (a n : nat) : NoDup (map Z.of_nat (seq a n)).
Proof.
  revert a. induction n as [|n IH]; intros a; simpl; constructor; [| apply IH].
  rewrite list_elem_of_In, in_map_iff. intros (k & Hk & Hin).
  apply in_seq in Hin. lia.
Qed.

(** X6. As long as no task is deleted, the ids of the collection are
    1, 2, ..., n in this order, and so are pairwise different: a
    collection numbered like this stays numbered like this through every
    run of actions without a confirmed delete. *)
Theorem ids_count_up_without_delete (l : list action) (s : App) :
  Forall keeps_every_task l ->
  ids (tasks s) = map Z.of_nat (seq 1 (length (tasks s))) ->
  ids (tasks (exec (perform_all l) s))
  = map Z.of_nat (seq 1 (length (tasks (exec (perform_all l) s))))
  /\ NoDup (ids (tasks (exec (perform_all l) s))).
Proof.
  intros Hl Hs.
  assert (H : ids (tasks (exec (perform_all l) s))
              = map Z.of_nat (seq 1 (length (tasks (exec (perform_all l) s))))).
  { revert l s Hl Hs.
    apply (perform_all_keeps
             (fun s => ids (tasks s) = map Z.of_nat (seq 1 (length (tasks s))))).
    intros a s Ha H. rewrite perform_tasks.
    destruct a as [te dt pv|i c|i te dt pv|[|] i|ft|text|]; try assumption.
    - destruct (truthy (strip te)); [| assumption].
      unfold ids in *. rewrite map_app, length_app, H. simpl.
      rewrite Nat.add_1_r, seq_S, map_app. simpl. do 2 f_equal. lia.
    - now rewrite set_first_status_ids, set_first_status_length.
    - destruct (list_find _ (tasks s)) as [[j t]|]; [| assumption].
      unfold ids in *. rewrite map_alter_same by reflexivity.
      now rewrite length_alter.
    - destruct Ha. }
  split; [exact H |]. rewrite H. apply NoDup_count_up.
Qed.

End Invariants.

(** ** Titles *)

Section Titles.

Lemma lstrip_head (s : string) (c : ascii) (r : string) :
  lstrip s = String c r -> isspace c = false.
Proof.
  induction s as [|x s IH]; simpl; [discriminate |].
  destruct (isspace x) eqn:E; [exact IH |]. intros H. injection H as <- _. exact E.
Qed.

Lemma rstrip_head (s : string) (c : ascii) (r : string) :
  rstrip s = String c r -> exists r', s = String c r'.
Proof.
  destruct s as [|x s]; simpl; [discriminate |].
  destruct (rstrip s); [destruct (isspace x); [discriminate |] |];
    intros H; injection H as <- _; eauto.
Qed.

Lemma rstrip_idempotent (s : string) : rstrip (rstrip s) = rstrip s.
Proof.
  induction s as [|x s IH]; simpl; [reflexivity |].
  destruct (rstrip s) as [|d r] eqn:E.
  - destruct (isspace x) eqn:Ex; simpl; [reflexivity | now rewrite Ex].
  - change (rstrip (String x (String d r))) with
      (match rstrip (String d r) with
       | EmptyString => if isspace x then EmptyString else String x EmptyString
       | r0 => String x r0
       end).
    now rewrite IH.
Qed.

(** What [strip] returns has no white space at its start, and stripping
    it again changes nothing. *)
Lemma strip_head (s : string) (c : ascii) (r : string) :
  strip s = String c r -> isspace c = false.
Proof.
  unfold strip. intros H. destruct (rstrip_head _ _ _ H) as [r' Hr].
  exact (lstrip_head _ _ _ Hr).
Qed.

Lemma strip_idempotent (s : string) : strip (strip s) = strip s.
Proof.
  destruct (strip s) as [|c r] eqn:E; [reflexivity |].
  pose proof (strip_head _ _ _ E) as Hc.
  unfold strip at 1. simpl lstrip. rewrite Hc.
  rewrite <- E. unfold strip. apply rstrip_idempotent.
Qed.

(** X7. The titles of the collection stay clean, that is not empty and
    without white space around them, through every run of actions in
    which no edit is sent with a title that is blank: [add_task] refuses
    a blank title and stores the stripped one, and so does an accepted
    edit. *)
Theorem titles_stay_clean (l : list action) (s : App) :
  Forall edits_with_title l ->
  Forall title_clean (tasks s) ->
  Forall title_clean (tasks (exec (perform_all l) s)).
Proof.
  apply (perform_all_keeps (fun s => Forall title_clean (tasks s))).
  clear. intros a s Ha H. apply perform_Forall; try assumption.
  - intros te dt pv _ Hne. split; [exact Hne | apply strip_idempotent].
  - intros i c t _ Ht. exact Ht.
  - intros i te dt pv t -> _. split; [exact Ha | apply strip_idempotent].
Qed.

End Titles.

(** ** More on the view *)

Section ViewLaws.

Lemma filter_comm {A} (f g : A -> bool) (l : list A) :
  List.filter f (List.filter g l) = List.filter g (List.filter f l).
Proof.
  induction l as [|x l IH]; simpl; [reflexivity |].
  destruct (f x) eqn:Ef, (g x) eqn:Eg; simpl; rewrite ?Ef, ?Eg, IH; reflexivity.
Qed.

Lemma filter_idempotent {A} (f : A -> bool) (l : list A) :
  List.filter f (List.filter f l) = List.filter f l.
Proof.
  induction l as [|x l IH]; simpl; [reflexivity |].
  destruct (f x) eqn:Ef; simpl; rewrite ?Ef, IH; reflexivity.
Qed.

Lemma filter_sublist {A} (f : A -> bool) (l : list A) :
  sublist (List.filter f l) l.
Proof.
  induction l as [|x l IH]; simpl; [constructor |].
  destruct (f x); now constructor.
Qed.

Lemma select_view_kind_test (filter_type : string) (today : date)
      (p : Task -> bool) (prev ts : list Task) :
  kind_test filter_type today = Some p ->
  select_view filter_type today prev ts = List.filter p ts.
Proof.
  unfold kind_test, select_view.
  repeat (destruct (String.eqb filter_type _);
          [intros H; injection H as <-;
           try reflexivity; symmetry; now apply filter_all_true |]).
  discriminate.
Qed.

Lemma select_view_unknown (filter_type : string) (today : date)
      (prev ts : list Task) :
  ~ In filter_type ["all"; "pending"; "completed"; "high"; "today"] ->
  select_view filter_type today prev ts = prev.
Proof.
  intros H. unfold select_view.
  repeat match goal with
         | |- context [String.eqb filter_type ?k] =>
             destruct (String.eqb_spec filter_type k) as [->|_];
             [exfalso; apply H; simpl; auto 10 |]
         end.
  reflexivity.
Qed.

Lemma search_view_filter (sv : string) (p : Task -> bool) (l : list Task) :
  search_view sv (List.filter p l) = List.filter p (search_view sv l).
Proof. unfold search_view. destruct (truthy sv); [apply filter_comm | reflexivity]. Qed.

Lemma search_view_idempotent (sv : string) (l : list Task) :
  search_view sv (search_view sv l) = search_view sv l.
Proof.
  unfold search_view. destruct (truthy sv); [apply filter_idempotent | reflexivity].
Qed.

Lemma search_view_sublist (sv : string) (l : list Task) :
  sublist (search_view sv l) l.
Proof. unfold search_view. destruct (truthy sv); [apply filter_sublist | reflexivity]. Qed.

(** X8. [filter_tasks] draws one card for each task of the view it
    builds, in the order of the view, and sets the active filter; it
    leaves the collection, the file, the labels, the search box and the
    messages as they were, for every filter name. *)
Theorem filter_tasks_draws_the_view (filter_type : string) (s : App) :
  map card_task (cards (exec (filter_tasks filter_type) s))
  = filtered_tasks (exec (filter_tasks filter_type) s)
  /\ current_filter (exec (filter_tasks filter_type) s) = filter_type
  /\ tasks (exec (filter_tasks filter_type) s) = tasks s
  /\ tasks_file (exec (filter_tasks filter_type) s) = tasks_file s
  /\ stat_labels (exec (filter_tasks filter_type) s) = stat_labels s
  /\ search_var (exec (filter_tasks filter_type) s) = search_var s
  /\ ui (exec (filter_tasks filter_type) s) = ui s.
Proof.
  destruct (filter_tasks_state filter_type s) as (cs & Hc & ->). simpl.
  repeat split. exact Hc.
Qed.

(** X9. For a filter name that [filter_tasks] has no branch for, the
    view is not built from the collection: it is the view of the previous
    call, narrowed once more by the search box. *)
Theorem filter_tasks_unknown_name (filter_type : string) (s : App) :
  ~ In filter_type ["all"; "pending"; "completed"; "high"; "today"] ->
  filtered_tasks (exec (filter_tasks filter_type) s)
  = search_view (search_var s) (filtered_tasks s)
  /\ current_filter (exec (filter_tasks filter_type) s) = filter_type.
Proof.
  intros H. destruct (filter_tasks_state filter_type s) as (cs & _ & ->). simpl.
  now rewrite select_view_unknown.
Qed.

(** X10. Filter and search narrow the collection independently of their
    order: for each of the five filters, the view is the filter's
    condition applied to what the "all" filter shows for the same search
    box, and it is a sublist of the collection (no task is invented,
    repeated or moved). *)
Theorem filter_and_search_commute (filter_type : string) (p : Task -> bool)
        (s : App) :
  kind_test filter_type (dt_date (clock s (ticks s))) = Some p ->
  filtered_tasks (exec (filter_tasks filter_type) s)
  = List.filter p (filtered_tasks (exec (filter_tasks "all") s))
  /\ sublist (filtered_tasks (exec (filter_tasks filter_type) s)) (tasks s).
Proof.
  intros Hk. rewrite !filter_tasks_view. unfold strftime_ymd.
  rewrite (select_view_kind_test _ _ _ _ _ Hk).
  change (select_view "all" (dt_date (clock s (ticks s))) (filtered_tasks s)
            (tasks s)) with (tasks s).
  split; [apply search_view_filter |].
  transitivity (List.filter p (tasks s));
    [apply search_view_sublist | apply filter_sublist].
Qed.

(** X11. Pressing the same filter button twice shows what pressing it
    once shows, for every filter name but "today" (whose view depends on
    the clock). *)
Theorem filter_tasks_twice (filter_type : string) (s : App) :
  filter_type <> "today" ->
  filtered_tasks (exec (filter_tasks filter_type;; filter_tasks filter_type) s)
  = filtered_tasks (exec (filter_tasks filter_type) s).
Proof.
  intros Hne. rewrite exec_seq.
  rewrite (filter_tasks_view filter_type (exec (filter_tasks filter_type) s)).
  destruct (filter_tasks_state filter_type s) as (cs & _ & ->). simpl.
  unfold strftime_ymd.
  destruct (kind_test filter_type 0) as [p|] eqn:Hk.
  - assert (Hsel : forall today prev ts,
              select_view filter_type today prev ts
              = select_view filter_type 0 prev ts).
    { intros today prev ts. unfold select_view.
      repeat match goal with
             | |- context [String.eqb filter_type ?k] =>
                 destruct (String.eqb_spec filter_type k) as [->|_];
                 [try reflexivity; congruence |]
             end.
      reflexivity. }
    rewrite (Hsel (dt_date (clock s _))), (Hsel (dt_date (clock s (ticks s)))).
    now rewrite !(select_view_kind_test _ _ _ _ _ Hk).
  - assert (Hun : ~ In filter_type ["all"; "pending"; "completed"; "high"; "today"]).
    { intros Hin. unfold kind_test in Hk.
      repeat match type of Hk with
             | context [String.eqb filter_type ?k] =>
                 destruct (String.eqb_spec filter_type k) as [->|?];
                 [discriminate |]
             end.
      simpl in Hin. intuition congruence. }
    rewrite !select_view_unknown by assumption.
    apply search_view_idempotent.
Qed.

End ViewLaws.

(** ** Labels and views *)

Section LabelsAndViews.

Lemma count_not_completed (l : list Task) :
  Forall status_known l ->
  length (List.filter (fun t => String.eqb (status t) "pending") l)
  = (length l
     - length (List.filter (fun t => String.eqb (status t) "completed") l))%nat.
Proof.
  induction 1 as [|t l [Ht|Ht] _ IH]; simpl; [reflexivity | |]; rewrite Ht; simpl.
  - rewrite IH.
    pose proof (List.filter_length_le
                  (fun t => String.eqb (status t) "completed") l) as Hle.
    revert Hle. generalize (length (List.filter
                  (fun t => String.eqb (status t) "completed") l)).
    intros n Hle. unfold length in *. lia.
  - exact IH.
Qed.

(** X12. With an empty search box, the labels of a collection whose
    statuses are all pending or completed count the views: the total is
    the size of the "all" view, the completed label the size of the
    "completed" view, and the pending label, computed as their
    difference, the size of the "pending" view. *)
Theorem labels_count_the_views (s : App) :
  labels_in_sync s ->
  Forall status_known (tasks s) ->
  search_var s = "" ->
  Z.of_nat (length (filtered_tasks (exec (filter_tasks "all") s)))
  = total (stat_labels s)
  /\ Z.of_nat (length (filtered_tasks (exec (filter_tasks "completed") s)))
     = completed (stat_labels s)
  /\ Z.of_nat (length (filtered_tasks (exec (filter_tasks "pending") s)))
     = pending (stat_labels s).
Proof.
  intros Hsync Hknown Hsv. rewrite !filter_tasks_view, Hsv, Hsync.
  unfold search_view, select_view, stats_of. simpl.
  split; [reflexivity |]. split; [reflexivity |].
  rewrite count_not_completed by assumption.
  pose proof (List.filter_length_le
                (fun t => String.eqb (status t) "completed") (tasks s)) as Hle.
  revert Hle. generalize (length (List.filter
                (fun t => String.eqb (status t) "completed") (tasks s))).
  intros n Hle. lia.
Qed.

(** X13. On a card the checkbox is ticked exactly when the title is
    struck through, for every task whose status is pending or
    completed. *)
Theorem checkbox_matches_strike (t : Task) :
  status_known t -> card_checked t = title_struck t.
Proof.
  unfold card_checked, title_struck. intros [H|H]; now rewrite H.
Qed.

(** A task with any other status is drawn struck through and not
    ticked. *)
Lemma other_status_struck_unticked (t : Task) :
  ~ status_known t -> card_checked t = false /\ title_struck t = true.
Proof.
  unfold status_known, card_checked, title_struck. intros H.
  destruct (String.eqb_spec (status t) "completed"),
           (String.eqb_spec (status t) "pending"); tauto.
Qed.

End LabelsAndViews.

(** ** Toggling, deleting and editing again *)

Section Composition.

Lemma toggle_tasks (i : Z) (c : bool) (s : App) :
  tasks (exec (toggle_task_status i c) s)
  = set_first_status i (if c then "completed" else "pending") (tasks s).
Proof. apply (perform_tasks (ActToggle i c)). Qed.

Lemma delete_tasks (i : Z) (s : App) :
  tasks (exec (delete_task true i) s)
  = List.filter (fun t => negb (id t =? i)) (tasks s).
Proof. apply (perform_tasks (ActDelete true i)). Qed.

Lemma set_first_status_twice (i : Z) (a b : string) (l : list Task) :
  set_first_status i b (set_first_status i a l) = set_first_status i b l.
Proof.
  induction l as [|t l IH]; simpl; [reflexivity |].
  destruct (id t =? i) eqn:E; simpl; rewrite E; [reflexivity | now rewrite IH].
Qed.

Lemma set_status_same (t : Task) : set_status (status t) t = t.
Proof. now destruct t. Qed.

(** X14. Of two toggles of the same id the last one decides: ticking and
    unticking a checkbox in any sequence leaves the collection as the last
    click alone would. *)
Theorem last_toggle_wins (i : Z) (a b : bool) (s : App) :
  tasks (exec (toggle_task_status i a;; toggle_task_status i b) s)
  = tasks (exec (toggle_task_status i b) s).
Proof.
  rewrite exec_seq, !toggle_tasks. apply set_first_status_twice.
Qed.

(** X15. A pending task that is completed and then reopened is as it
    was, and so is the whole collection. *)
Theorem complete_then_reopen (i : Z) (j : nat) (t : Task) (s : App) :
  list_find (fun t => id t = i) (tasks s) = Some (j, t) ->
  status t = "pending" ->
  tasks (exec (toggle_task_status i true;; toggle_task_status i false) s)
  = tasks s.
Proof.
  intros Hf Hst.
  rewrite exec_seq, !toggle_tasks, set_first_status_twice, set_first_status_find, Hf.
  rewrite <- Hst, set_status_same. apply list_insert_id.
  now apply list_find_Some in Hf as (Hj & _).
Qed.

(** X16. Deletes commute, and deleting an id twice is deleting it once. *)
Theorem deletes_commute (i j : Z) (s : App) :
  tasks (exec (delete_task true i;; delete_task true j) s)
  = tasks (exec (delete_task true j;; delete_task true i) s)
  /\ tasks (exec (delete_task true i;; delete_task true i) s)
     = tasks (exec (delete_task true i) s).
Proof.
  rewrite !exec_seq, !delete_tasks.
  split; [apply filter_comm | apply filter_idempotent].
Qed.

(** X17. Adding a task and then deleting the id it was given brings the
    collection back, provided no task of the collection had that id. *)
Theorem add_then_delete (te dt pv : string) (s : App) :
  strip te <> "" ->
  ~ In (Z.of_nat (length (tasks s)) + 1) (ids (tasks s)) ->
  tasks (exec (add_task te dt pv;;
               delete_task true (Z.of_nat (length (tasks s)) + 1)) s)
  = tasks s.
Proof.
  intros Hne Hfresh. rewrite exec_seq, delete_tasks.
  rewrite (perform_tasks (ActAdd te dt pv)).
  destruct (strip te) as [|ch r] eqn:E; [congruence |]. simpl.
  rewrite List.filter_app, filter_other_ids_absent by assumption.
  simpl. rewrite Z.eqb_refl. simpl. apply app_nil_r.
Qed.

Lemma NoDup_ids_filter (f : Task -> bool) (l : list Task) :
  NoDup (ids l) -> NoDup (ids (List.filter f l)).
Proof.
  unfold ids. induction l as [|t l IH]; simpl; [intros; constructor |].
  intros H. apply NoDup_cons in H as [Hn H].
  destruct (f t); simpl; [| now apply IH].
  apply NoDup_cons. split; [| now apply IH].
  intros Hin. apply Hn. rewrite list_elem_of_In in *.
  apply in_map_iff in Hin as (x & Hx & Hin). apply in_map_iff. exists x.
  split; [exact Hx |]. now apply List.filter_In in Hin as [Hin _].
Qed.

(** X18. Only an add can give two tasks the same id: a collection whose
    ids are pairwise different keeps them so through every run of actions
    without an add. *)
Theorem ids_stay_unique_without_add (l : list action) (s : App) :
  Forall adds_nothing l ->
  NoDup (ids (tasks s)) ->
  NoDup (ids (tasks (exec (perform_all l) s))).
Proof.
  apply (perform_all_keeps (fun s => NoDup (ids (tasks s)))).
  clear. intros a s Ha H. rewrite perform_tasks.
  destruct a as [te dt pv|i c|i te dt pv|[|] i|ft|text|]; try assumption.
  - destruct Ha.
  - now rewrite set_first_status_ids.
  - destruct (list_find _ (tasks s)) as [[j t]|]; [| assumption].
    unfold ids in *. now rewrite map_alter_same by reflexivity.
  - now apply NoDup_ids_filter.
Qed.

(** X19. What an edit does to the collection, accepted or not: the first
    task with the id gets the stripped title, the stripped description and
    the priority that were entered; no other task changes; and no task
    changes its id, status, creation time or due date. *)
Theorem update_rewrites_three_fields (i : Z) (te dt pv : string) (s : App) :
  tasks (exec (update i te dt pv) s)
  = match list_find (fun t => id t = i) (tasks s) with
    | None => tasks s
    | Some (j, t) => <[j := edited te dt pv t]> (tasks s)
    end
  /\ map fixed_fields (tasks (exec (update i te dt pv) s))
     = map fixed_fields (tasks s).
Proof.
  rewrite (perform_tasks (ActEdit i te dt pv)).
  destruct (list_find _ (tasks s)) as [[j t]|] eqn:Hf; [| now split].
  split; [| now apply map_alter_same].
  apply list_find_Some in Hf as (Hj & _).
  rewrite list_insert_alter. apply list_alter_ext; [| reflexivity].
  intros x Hx. congruence.
Qed.

End Composition.

(** ** The faces of a card *)

Section CardFaces.

(** X20. What a card says about the due date in terms of dates: when the
    clock is read at any time of day but midnight sharp, the number of
    days on the card is one less than the days between today and the due
    date, so the card is the overdue one up to and including the due
    day, the "(Today)" one on the eve of the due day, the warning one two
    to four days before it and the plain one from five days before. *)
Theorem card_urgency_by_dates (t : Task) (s : App) :
  wf_datetime (clock s (ticks s)) ->
  (dt_second (clock s (ticks s)) =? 0)
  && (dt_microsecond (clock s (ticks s)) =? 0) = false ->
  card_days_until (eval (create_task_card t) s)
  = due_date t - dt_date (clock s (ticks s)) - 1
  /\ card_urgency (eval (create_task_card t) s)
     = (if due_date t <=? dt_date (clock s (ticks s)) then Overdue
        else if due_date t =? dt_date (clock s (ticks s)) + 1 then DueToday
        else if due_date t <=? dt_date (clock s (ticks s)) + 4 then DueSoon
        else Normal).
Proof.
  intros Hwf Hm. rewrite create_task_card_eval. simpl.
  rewrite days_until_at_eq, Hm by assumption. split; [reflexivity |].
  unfold due_badge.
  set (due := due_date t). set (today := dt_date (clock s (ticks s))).
  destruct (Z.ltb_spec (due - today - 1) 0), (Z.leb_spec due today);
    try lia; [reflexivity |].
  destruct (Z.eqb_spec (due - today - 1) 0), (Z.eqb_spec due (today + 1));
    try lia; [reflexivity |].
  destruct (Z.leb_spec (due - today - 1) 3), (Z.leb_spec due (today + 4));
    try lia; reflexivity.
Qed.

Lemma slice_to_length (n : nat) (s : string) :
  (String.length (slice_to n s) <= n)%nat.
Proof.
  revert s. induction n as [|n IH]; intros [|c s]; simpl; try lia.
  specialize (IH s). lia.
Qed.

Lemma slice_to_all (n : nat) (s : string) :
  (String.length s <= n)%nat -> slice_to n s = s.
Proof.
  revert s. induction n as [|n IH]; intros [|c s]; simpl; intros H;
    try reflexivity; try lia.
  rewrite IH; [reflexivity | lia].
Qed.

Lemma slice_to_append (n : nat) (s r : string) :
  (n <= String.length s)%nat -> slice_to n (String.append (slice_to n s) r) = slice_to n s.
Proof.
  revert s. induction n as [|n IH]; intros [|c s]; simpl; intros H;
    try reflexivity; try lia.
  rewrite ?append_cons. simpl. rewrite IH; [reflexivity | lia].
Qed.

Lemma append_length (a b : string) :
  String.length (String.append a b) = (String.length a + String.length b)%nat.
Proof.
  induction a as [|c a IH]; [reflexivity |].
  rewrite ?append_cons. simpl. now rewrite IH.
Qed.

(** X21. The description under a title: a task with a missing or empty
    description has none; otherwise the label is not empty, is at most
    103 characters long, starts with the first 100 characters of the
    description, and is the description itself when that has at most 100
    characters. *)
Theorem description_label_cut (t : Task) :
  match description_label t with
  | None => get_description t = ""
  | Some p =>
      p <> ""
      /\ (String.length p <= 103)%nat
      /\ slice_to 100 p = slice_to 100 (get_description t)
      /\ ((String.length (get_description t) <=? 100)%nat = false
          \/ p = get_description t)
  end.
Proof.
  unfold description_label, get_description.
  destruct (description t) as [d|]; [| reflexivity].
  change (default "" (Some d)) with d.
  destruct (truthy d) eqn:Ht; [| now apply truthy_false in Ht].
  assert (Hd : d <> "") by (intros ->; discriminate).
  destruct (Nat.ltb_spec 100 (String.length d)) as [Hlong|Hshort].
  - split.
    + destruct d; [congruence |].
      change (slice_to 100 (String a d)) with (String a (slice_to 99 d)).
      rewrite append_cons. discriminate.
    + split.
      * rewrite append_length. pose proof (slice_to_length 100 d) as Hlen.
        change (String.length "...") with 3%nat. lia.
      * split; [apply slice_to_append; lia |].
        left. apply Nat.leb_gt. lia.
  - split; [assumption |]. split; [lia |].
    split; [reflexivity | now right].
Qed.

End CardFaces.

(** ** The view after a change *)

Section ViewAfterChange.

(** X22. After a toggle and after a confirmed delete whose write of the
    file succeeds, the window shows what pressing the active filter
    button would show for the new collection, with one card for each
    task of that view. *)
Theorem view_follows_toggle_and_delete (i : Z) (c : bool) (s : App) :
  disk s (writes s) = Written ->
  filtered_tasks (exec (toggle_task_status i c) s)
  = filtered_tasks
      (exec (filter_tasks (current_filter s))
            (with_tasks (tasks (exec (toggle_task_status i c) s)) s))
  /\ map card_task (cards (exec (toggle_task_status i c) s))
     = filtered_tasks (exec (toggle_task_status i c) s)
  /\ filtered_tasks (exec (delete_task true i) s)
     = filtered_tasks
         (exec (filter_tasks (current_filter s))
               (with_tasks (tasks (exec (delete_task true i) s)) s))
  /\ map card_task (cards (exec (delete_task true i) s))
     = filtered_tasks (exec (delete_task true i) s).
Proof.
  intros Hw. rewrite !filter_tasks_view.
  destruct (toggle_task_status_state i c s Hw) as (cs & Hc & n & ->).
  destruct (delete_task_state i s Hw) as (cs' & Hc' & n' & ->).
  unfold refreshed_view, strftime_ymd in *. simpl. rewrite Nat.add_0_r in *.
  repeat split; assumption.
Qed.

End ViewAfterChange.

(** ** Searching and editing: edge cases *)

Section EdgeCases.

Lemma kind_test_any_day (filter_type : string) (d d' : date) :
  filter_type <> "today" -> kind_test filter_type d = kind_test filter_type d'.
Proof.
  intros H. unfold kind_test.
  repeat match goal with
         | |- context [String.eqb filter_type ?k] =>
             destruct (String.eqb_spec filter_type k) as [->|?];
             [try reflexivity; congruence |]
         end.
  reflexivity.
Qed.

(** X23. Typing in the search box narrows the view of the active filter,
    and emptying the box brings that view back in full, for each of the
    filters "all", "pending", "completed" and "high". *)
Theorem clearing_search_restores_view (text : string) (p : Task -> bool)
        (s : App) :
  kind_test (current_filter s) (dt_date (clock s (ticks s))) = Some p ->
  current_filter s <> "today" ->
  filtered_tasks (exec (search_tasks text) s)
  = search_view text (List.filter p (tasks s))
  /\ filtered_tasks (exec (search_tasks text;; search_tasks "") s)
     = List.filter p (tasks s).
Proof.
  intros Hk Hne. rewrite exec_seq, !search_tasks_exec.
  rewrite (filter_tasks_view (current_filter s) (with_search_var text s)).
  simpl. unfold strftime_ymd. rewrite (select_view_kind_test _ _ _ _ _ Hk).
  split; [reflexivity |].
  destruct (filter_tasks_state (current_filter s) (with_search_var text s))
    as (cs & _ & ->).
  simpl. rewrite filter_tasks_view. simpl. unfold strftime_ymd.
  apply select_view_kind_test.
  now rewrite (kind_test_any_day _ _ (dt_date (clock s (ticks s)))).
Qed.

(** X24. Opening the editor on an id that no task has does nothing at
    all: no field of the application changes and nothing is shown. (A
    toggle or a delete of such an id saves and reports success.) *)
Theorem edit_unknown_id_does_nothing (i : Z) (te dt pv : string) (s : App) :
  ~ In i (ids (tasks s)) ->
  exec (update i te dt pv) s = s.
Proof.
  intros H. rewrite update_exec. now rewrite list_find_unknown_id.
Qed.

End EdgeCases.

(** ** The laws above at concrete stores *)

Section MoreWitnesses.

Lemma example_day_keeps_every_task : Forall keeps_every_task example_day.
Proof. repeat constructor. Defined.

Lemma example_day_edits_with_title : Forall edits_with_title example_day.
Proof. repeat (constructor; [simpl; try exact I; discriminate |]). constructor. Defined.

Lemma example_day_enters_radio_value : Forall enters_radio_value example_day.
Proof.
  repeat (constructor; [simpl; unfold radio_value; auto |]). constructor.
Defined.

Lemma example_cleanup_adds_nothing : Forall adds_nothing example_cleanup.
Proof. repeat constructor. Defined.

Lemma labels_always_in_sync_witness :
  startup (Stored [milk_task]) morning_clock good_disk = Return reopened_store
  /\ (forall n, good_disk n = Written)
  /\ labels_in_sync (exec (perform_all example_day) reopened_store)
  /\ pending (stat_labels (exec (perform_all example_day) reopened_store))
     = total (stat_labels (exec (perform_all example_day) reopened_store))
       - completed (stat_labels (exec (perform_all example_day) reopened_store))
  /\ total (stat_labels (exec (perform_all example_day) reopened_store))
     = Z.of_nat (length (tasks (exec (perform_all example_day) reopened_store))).
Proof.
  split; [reflexivity |]. split; [reflexivity |].
  exact (labels_always_in_sync (Stored [milk_task]) morning_clock good_disk
           example_day reopened_store eq_refl (fun _ => eq_refl)).
Defined.

Lemma statuses_stay_known_witness :
  Forall status_known (tasks milk_store)
  /\ Forall status_known (tasks (exec (perform_all example_day) milk_store)).
Proof.
  assert (H : Forall status_known (tasks milk_store))
    by (constructor; [now left | constructor]).
  split; [exact H |]. exact (statuses_stay_known example_day milk_store H).
Defined.

Lemma priority_badge_always_found_witness :
  Forall enters_radio_value example_day
  /\ Forall (fun t => radio_value (priority t)) (tasks milk_store)
  /\ Forall (fun t => is_Some (priority_badge_color t))
            (tasks (exec (perform_all example_day) milk_store)).
Proof.
  assert (H : Forall (fun t => radio_value (priority t)) (tasks milk_store))
    by (constructor; [now left | constructor]).
  split; [exact example_day_enters_radio_value |]. split; [exact H |].
  exact (proj1 (priority_badge_always_found example_day milk_store
                  example_day_enters_radio_value H)).
Defined.

Lemma file_follows_collection_witness :
  Forall edits_with_title example_day
  /\ (forall n, disk milk_store n = Written)
  /\ persisted milk_store
  /\ persisted (exec (perform_all example_day) milk_store).
Proof.
  assert (Hd : forall n, disk milk_store n = Written) by reflexivity.
  assert (H : persisted milk_store) by reflexivity.
  split; [exact example_day_edits_with_title |]. split; [exact Hd |].
  split; [exact H |].
  exact (file_follows_collection example_day milk_store
           example_day_edits_with_title Hd H).
Defined.

Lemma restart_restores_collection_witness :
  disk milk_store (writes milk_store) = Written
  /\ exists s',
       startup (tasks_file (exec on_closing milk_store)) morning_clock good_disk
       = Return s'
       /\ tasks s' = tasks milk_store
       /\ filtered_tasks s' = tasks milk_store
       /\ map card_task (cards s') = tasks milk_store
       /\ current_filter s' = "all"
       /\ search_var s' = ""
       /\ labels_in_sync s'.
Proof.
  assert (Hw : disk milk_store (writes milk_store) = Written) by reflexivity.
  split; [exact Hw |].
  exact (restart_restores_collection milk_store morning_clock good_disk Hw).
Defined.

Lemma view_follows_toggle_and_delete_witness :
  disk milk_store (writes milk_store) = Written
  /\ filtered_tasks (exec (toggle_task_status 1 true) milk_store)
     = filtered_tasks
         (exec (filter_tasks (current_filter milk_store))
               (with_tasks (tasks (exec (toggle_task_status 1 true) milk_store))
                           milk_store))
  /\ map card_task (cards (exec (toggle_task_status 1 true) milk_store))
     = filtered_tasks (exec (toggle_task_status 1 true) milk_store)
  /\ filtered_tasks (exec (delete_task true 1) milk_store)
     = filtered_tasks
         (exec (filter_tasks (current_filter milk_store))
               (with_tasks (tasks (exec (delete_task true 1) milk_store))
                           milk_store))
  /\ map card_task (cards (exec (delete_task true 1) milk_store))
     = filtered_tasks (exec (delete_task true 1) milk_store).
Proof.
  assert (Hw : disk milk_store (writes milk_store) = Written) by reflexivity.
  split; [exact Hw |].
  exact (view_follows_toggle_and_delete 1 true milk_store Hw).
Defined.

Lemma ids_count_up_without_delete_witness :
  Forall keeps_every_task example_day
  /\ ids (tasks milk_store) = map Z.of_nat (seq 1 (length (tasks milk_store)))
  /\ ids (tasks (exec (perform_all example_day) milk_store))
     = map Z.of_nat
         (seq 1 (length (tasks (exec (perform_all example_day) milk_store))))
  /\ NoDup (ids (tasks (exec (perform_all example_day) milk_store))).
Proof.
  assert (H : ids (tasks milk_store)
              = map Z.of_nat (seq 1 (length (tasks milk_store))))
    by reflexivity.
  split; [exact example_day_keeps_every_task |]. split; [exact H |].
  exact (ids_count_up_without_delete example_day milk_store
           example_day_keeps_every_task H).
Defined.

Lemma titles_stay_clean_witness :
  Forall edits_with_title example_day
  /\ Forall title_clean (tasks milk_store)
  /\ Forall title_clean (tasks (exec (perform_all example_day) milk_store)).
Proof.
  assert (H : Forall title_clean (tasks milk_store))
    by (constructor; [split; [discriminate | reflexivity] | constructor]).
  split; [exact example_day_edits_with_title |]. split; [exact H |].
  exact (titles_stay_clean example_day milk_store
           example_day_edits_with_title H).
Defined.

Lemma filter_tasks_unknown_name_witness :
  ~ In "overdue" ["all"; "pending"; "completed"; "high"; "today"]
  /\ filtered_tasks (exec (filter_tasks "overdue") milk_store)
     = search_view (search_var milk_store) (filtered_tasks milk_store)
  /\ current_filter (exec (filter_tasks "overdue") milk_store) = "overdue".
Proof.
  assert (H : ~ In "overdue" ["all"; "pending"; "completed"; "high"; "today"])
    by (simpl; intuition discriminate).
  split; [exact H |]. exact (filter_tasks_unknown_name "overdue" milk_store H).
Defined.

Lemma filter_and_search_commute_witness :
  kind_test "high" (dt_date (clock store_after_readd (ticks store_after_readd)))
  = Some (fun t => String.eqb (priority t) "high")
  /\ filtered_tasks (exec (filter_tasks "high") store_after_readd)
     = List.filter (fun t => String.eqb (priority t) "high")
         (filtered_tasks (exec (filter_tasks "all") store_after_readd))
  /\ sublist (filtered_tasks (exec (filter_tasks "high") store_after_readd))
             (tasks store_after_readd).
Proof.
  split; [reflexivity |].
  exact (filter_and_search_commute "high"
           (fun t => String.eqb (priority t) "high") store_after_readd eq_refl).
Defined.

Lemma filter_tasks_twice_witness :
  "pending" <> "today"
  /\ filtered_tasks (exec (filter_tasks "pending";; filter_tasks "pending")
                          milk_store)
     = filtered_tasks (exec (filter_tasks "pending") milk_store).
Proof.
  assert (H : "pending" <> "today") by discriminate.
  split; [exact H |]. exact (filter_tasks_twice "pending" milk_store H).
Defined.

Lemma labels_count_the_views_witness :
  labels_in_sync milk_store
  /\ Forall status_known (tasks milk_store)
  /\ search_var milk_store = ""
  /\ Z.of_nat (length (filtered_tasks (exec (filter_tasks "all") milk_store)))
     = total (stat_labels milk_store)
  /\ Z.of_nat (length (filtered_tasks (exec (filter_tasks "completed") milk_store)))
     = completed (stat_labels milk_store)
  /\ Z.of_nat (length (filtered_tasks (exec (filter_tasks "pending") milk_store)))
     = pending (stat_labels milk_store).
Proof.
  assert (H1 : labels_in_sync milk_store) by reflexivity.
  assert (H2 : Forall status_known (tasks milk_store))
    by (constructor; [now left | constructor]).
  assert (H3 : search_var milk_store = "") by reflexivity.
  split; [exact H1 |]. split; [exact H2 |]. split; [exact H3 |].
  exact (labels_count_the_views milk_store H1 H2 H3).
Defined.

Lemma checkbox_matches_strike_witness :
  status_known milk_task /\ card_checked milk_task = title_struck milk_task.
Proof.
  assert (H : status_known milk_task) by now left.
  split; [exact H |]. exact (checkbox_matches_strike milk_task H).
Defined.

Lemma complete_then_reopen_witness :
  list_find (fun t => id t = 1) (tasks milk_store) = Some (0%nat, milk_task)
  /\ status milk_task = "pending"
  /\ tasks (exec (toggle_task_status 1 true;; toggle_task_status 1 false)
                 milk_store)
     = tasks milk_store.
Proof.
  assert (H : list_find (fun t => id t = 1) (tasks milk_store)
              = Some (0%nat, milk_task)) by (vm_compute; reflexivity).
  split; [exact H |]. split; [reflexivity |].
  exact (complete_then_reopen 1 0 milk_task milk_store H eq_refl).
Defined.

Lemma add_then_delete_witness :
  strip "Ship release" <> ""
  /\ ~ In (Z.of_nat (length (tasks milk_store)) + 1) (ids (tasks milk_store))
  /\ tasks (exec (add_task "Ship release" "" "high";;
                  delete_task true (Z.of_nat (length (tasks milk_store)) + 1))
                 milk_store)
     = tasks milk_store.
Proof.
  assert (H1 : strip "Ship release" <> "") by (vm_compute; discriminate).
  assert (H2 : ~ In (Z.of_nat (length (tasks milk_store)) + 1)
                    (ids (tasks milk_store)))
    by (vm_compute; intuition discriminate).
  split; [exact H1 |]. split; [exact H2 |].
  exact (add_then_delete "Ship release" "" "high" milk_store H1 H2).
Defined.

Lemma ids_stay_unique_without_add_witness :
  Forall adds_nothing example_cleanup
  /\ NoDup (ids (tasks milk_store))
  /\ NoDup (ids (tasks (exec (perform_all example_cleanup) milk_store))).
Proof.
  assert (H : NoDup (ids (tasks milk_store))) by apply NoDup_singleton.
  split; [exact example_cleanup_adds_nothing |]. split; [exact H |].
  exact (ids_stay_unique_without_add example_cleanup milk_store
           example_cleanup_adds_nothing H).
Defined.

Lemma card_urgency_by_dates_witness :
  wf_datetime (morning_clock 0)
  /\ (dt_second (morning_clock 0) =? 0) && (dt_microsecond (morning_clock 0) =? 0)
     = false
  /\ card_days_until (eval (create_task_card milk_task)
                           (empty_store morning_clock)) = 6
  /\ card_urgency (eval (create_task_card milk_task)
                        (empty_store morning_clock)) = Normal.
Proof.
  assert (H : wf_datetime (morning_clock 0))
    by (unfold wf_datetime; vm_compute; intuition congruence).
  split; [exact H |]. split; [reflexivity |].
  exact (card_urgency_by_dates milk_task (empty_store morning_clock) H eq_refl).
Defined.

Lemma clearing_search_restores_view_witness :
  kind_test (current_filter milk_store)
            (dt_date (clock milk_store (ticks milk_store)))
  = Some (fun _ => true)
  /\ current_filter milk_store <> "today"
  /\ filtered_tasks (exec (search_tasks "bread") milk_store)
     = search_view "bread" (List.filter (fun _ => true) (tasks milk_store))
  /\ filtered_tasks (exec (search_tasks "bread";; search_tasks "") milk_store)
     = List.filter (fun _ => true) (tasks milk_store).
Proof.
  assert (H : current_filter milk_store <> "today") by (vm_compute; discriminate).
  split; [reflexivity |]. split; [exact H |].
  exact (clearing_search_restores_view "bread" (fun _ => true) milk_store
           eq_refl H).
Defined.

Lemma edit_unknown_id_does_nothing_witness :
  ~ In 5 (ids (tasks milk_store))
  /\ exec (update 5 "Walk dog" "" "low") milk_store = milk_store.
Proof.
  assert (H : ~ In 5 (ids (tasks milk_store)))
    by (vm_compute; intuition congruence).
  split; [exact H |].
  exact (edit_unknown_id_does_nothing 5 "Walk dog" "" "low" milk_store H).
Defined.

End MoreWitnesses.
